(** * Reconciliation and feedback scoring of radiology reports

    A shallow embedding of [feedback_generator.py] (class
    [AdvancedFeedbackGenerator]) and of the gold-standard assembly step of
    [api_service.py] ([analyze_report], step 3), with the properties of the
    feedback record and of its score.  Around it, the rule-based analyzer
    that produces the learner's findings, the text-only parts of the two
    embedding-based analyzers, the case library and the endpoints of the
    service, and the two commands of the command-line client.  The neural
    models, the sentence splitter, the HTTP transport and the clock stay
    outside: they appear as parameters of the functions that use them.

    Modelling conventions.
    - A Python [str] is a [string]; each character stands for one code point
      below 256.  [lower] and the white space of [split] are the ones Python
      uses on that range.
    - A Python [set] of strings is a [gset string].  [list(s)] is [elements s]:
      Python leaves the iteration order of a set unspecified, so the theorems
      only speak of membership and of lengths, never of positions.
    - A Python [int] is a [Z]. *)

From Stdlib Require Import ZArith List Ascii String Lia.
From stdpp Require Import base gmap strings list sets.

Local Open Scope string_scope.
Local Open Scope Z_scope.

#[local] Set Warnings "-clear-no-such-hyp".

(** ** Python string primitives *)

Module PyStr.

(** [s.startswith('-')] *)
Definition startswith_dash (s : string) : bool :=
  match s with
  | String c _ => Ascii.eqb c "-"%char
  | EmptyString => false
  end.

(** [s.lstrip('-')]: every leading ['-'] is removed. *)
Fixpoint lstrip_dash (s : string) : string :=
  match s with
  | String c s' => if Ascii.eqb c "-"%char then lstrip_dash s' else s
  | EmptyString => EmptyString
  end.

(** [c.lower()] on a code point below 256: [A-Z] and the accented capitals
    [0xC0-0xDE] (without the multiplication sign [0xD7]) move up by 32. *)
Definition lower_char (c : ascii) : ascii :=
  let n := nat_of_ascii c in
  if ((65 <=? n) && (n <=? 90))%nat then ascii_of_nat (n + 32)
  else if ((192 <=? n) && (n <=? 222) && negb (n =? 215))%nat
       then ascii_of_nat (n + 32)
  else c.

(** [s.lower()] *)
Fixpoint lower (s : string) : string :=
  match s with
  | String c s' => String (lower_char c) (lower s')
  | EmptyString => EmptyString
  end.

(** [p in s]: [p] occurs in [s] as a contiguous substring. *)
Fixpoint contains (p s : string) : bool :=
  String.prefix p s ||
  match s with
  | String _ s' => contains p s'
  | EmptyString => false
  end.

(** The characters [split()] treats as separators: tab, line feed, vertical
    tab, form feed, carriage return, the four separators [0x1C-0x1F], space,
    next line [0x85] and the no-break space [0xA0]. *)
Definition isspace (c : ascii) : bool :=
  let n := nat_of_ascii c in
  ((9 <=? n) && (n <=? 13) || (28 <=? n) && (n <=? 32)
   || (n =? 133) || (n =? 160))%nat.

(** [len(s.split())]: the number of maximal runs of characters that are not
    white space.  [in_word] tells whether the previous character belonged to
    a word. *)
Fixpoint count_words (in_word : bool) (s : string) : Z :=
  match s with
  | EmptyString => 0
  | String c s' =>
      if isspace c then count_words false s'
      else (if in_word then 0 else 1) + count_words true s'
  end.

Definition split_len (s : string) : Z := count_words false s.

End PyStr.

(** ** Data *)

(** One entry of [student_analysis['fallback']['findings']], as
    [RuleBasedAnalyzer.analyze] builds it. *)
Record RawFinding := {
  type : string;
  text : string;
  negated : bool
}.

(** The part of [student_analysis] that [generate_feedback] reads. *)
Record StudentAnalysis := {
  fallback_findings : list RawFinding;
  report_text : string
}.

(** The dictionary [generate_feedback] returns. *)
Record FeedbackRecord := {
  correct_observations : list string;
  missed_findings : list string;
  misinterpretations : list string;
  clarity_and_style : list string;
  tips : list string;
  overall_score : Z
}.

Local Open Scope list_scope.

(** ** The style critic: [AdvancedFeedbackGenerator._check_report_style] *)

Definition unprofessional_phrases : list string :=
  ["i think"; "looks like"; "maybe a"; "stuff"; "bad finding"].

Definition phrase_advisory (phrase : string) : string :=
  "The phrase '" +:+ phrase +:+
  "' is unprofessional. Aim for objective, confident language (e.g., 'consistent with' or 'suggestive of').".

Definition brief_advisory : string :=
  "The report is very brief. Ensure all relevant positive and negative findings are documented.".

Definition verbose_advisory : string :=
  "The report is quite long. Strive for clarity and conciseness, especially in the impression.".

(** Rule 1, the body of the [for phrase in unprofessional_phrases] loop. *)
Definition check_phrase (text_lower : string)
    (style_feedback : list string) (phrase : string) : list string :=
  if PyStr.contains phrase text_lower
  then style_feedback ++ [phrase_advisory phrase]
  else style_feedback.

(** Rule 2, the [if word_count < 15 ... elif word_count > 100 ...] statement. *)
Definition check_conciseness (word_count : Z)
    (style_feedback : list string) : list string :=
  if word_count <? 15 then style_feedback ++ [brief_advisory]
  else if word_count >? 100 then style_feedback ++ [verbose_advisory]
  else style_feedback.

Definition _check_report_style (report_text : string) : list string :=
  let text_lower := PyStr.lower report_text in
  let style_feedback :=
    fold_left (check_phrase text_lower) unprofessional_phrases [] in
  let word_count := PyStr.split_len report_text in
  check_conciseness word_count style_feedback.

(** ** The reconciliation engine: [AdvancedFeedbackGenerator.generate_feedback] *)

(** Step 1, the ground truth: strings without the marker are positive, the
    others are negative once their leading markers are stripped. *)
Definition expert_positives (expert_findings : list string) : gset string :=
  list_to_set
    (List.filter (fun f => negb (PyStr.startswith_dash f)) expert_findings).

Definition expert_negatives (expert_findings : list string) : gset string :=
  list_to_set
    (List.map PyStr.lstrip_dash
       (List.filter PyStr.startswith_dash expert_findings)).

(** Step 2, the finding-set builder: the two comprehensions over
    [student_analysis['fallback']['findings']]. *)
Definition student_positives (findings : list RawFinding) : gset string :=
  list_to_set (List.map type (List.filter (fun f => negb (negated f)) findings)).

Definition student_negatives (findings : list RawFinding) : gset string :=
  list_to_set (List.map type (List.filter (fun f => negated f) findings)).

(** Step 3, the local lists of [generate_feedback] before they are phrased and
    concatenated. *)
Record Categories := {
  cat_correct_observations : list string;
  cat_correct_negations : list string;
  cat_missed_findings : list string;
  cat_missed_negations : list string;
  cat_misinterpretations : list string;
  cat_negation_errors : list string;
  cat_clarity_and_style_feedback : list string
}.

Definition categorize (student_analysis : StudentAnalysis)
    (expert_findings : list string) : Categories :=
  let ep := expert_positives expert_findings in
  let en := expert_negatives expert_findings in
  let sp := student_positives (fallback_findings student_analysis) in
  let sn := student_negatives (fallback_findings student_analysis) in
  {| cat_correct_observations := elements (sp ∩ ep);
     cat_correct_negations := elements (sn ∩ en);
     cat_missed_findings := elements (ep ∖ sp);
     cat_missed_negations := elements (en ∖ sn);
     cat_misinterpretations := elements (sp ∖ ep);
     cat_negation_errors := elements (sp ∩ en);
     cat_clarity_and_style_feedback :=
       _check_report_style (report_text student_analysis) |}.

Definition general_tips : list string :=
  ["Always conclude with a concise 'Impression' section summarizing the most critical findings.";
   "When describing a finding, try to mention its location (e.g., 'right lower lobe')."].

Definition absence_of (n : string) : string := "Absence of " +:+ n.
Definition missed_absence_of (n : string) : string :=
  "Missed stating the absence of " +:+ n.
Definition incorrectly_identified (n : string) : string :=
  "Incorrectly identified " +:+ n +:+ " (should be absent)".

Definition len (l : list string) : Z := Z.of_nat (length l).

(** The score before clamping: 100 minus the five penalties. *)
Definition raw_score (c : Categories) : Z :=
  100 - len (cat_missed_findings c) * 15
      - len (cat_missed_negations c) * 5
      - len (cat_misinterpretations c) * 20
      - len (cat_negation_errors c) * 25
      - len (cat_clarity_and_style_feedback c) * 5.

(** Step 4, the final feedback and score. *)
Definition assemble (c : Categories) : FeedbackRecord :=
  {| correct_observations :=
       cat_correct_observations c ++ List.map absence_of (cat_correct_negations c);
     missed_findings :=
       cat_missed_findings c ++ List.map missed_absence_of (cat_missed_negations c);
     misinterpretations :=
       cat_misinterpretations c
         ++ List.map incorrectly_identified (cat_negation_errors c);
     clarity_and_style := cat_clarity_and_style_feedback c;
     tips := general_tips;
     overall_score := Z.max 0 (Z.min 100 (raw_score c)) |}.

Definition generate_feedback (student_analysis : StudentAnalysis)
    (expert_findings : list string) : FeedbackRecord :=
  assemble (categorize student_analysis expert_findings).

(** ** The gold standard: step 3 of [analyze_report] *)

(** [list(expert_text_findings.union(visual_findings))] *)
Definition gold_standard_findings
    (expert_text_findings visual_findings : gset string) : list string :=
  elements (expert_text_findings ∪ visual_findings).

(** What [VisionAnalyzer.analyze_image] can return: the generic finding when
    the largest logit passes the threshold, nothing otherwise (also when the
    image cannot be read). *)
Definition analyze_image (anomaly : bool) : list string :=
  if anomaly then ["visual_anomaly"] else [].

(** ** Auxiliary definitions *)

(** [n] marker characters in a row. *)
Fixpoint dashes (n : nat) : string :=
  match n with
  | O => EmptyString
  | S n' => String "-"%char (dashes n')
  end.

(** The phrases the loop of rule 1 reports, in the order of the phrase list. *)
Definition flagged_phrases (text_lower : string) : list string :=
  List.filter (fun phrase => PyStr.contains phrase text_lower)
    unprofessional_phrases.

(** What rule 2 appends. *)
Definition length_advisories (word_count : Z) : list string :=
  check_conciseness word_count [].

(** ** Sample inputs *)

(** A report of 23 words with none of the flagged phrases: no style advisory. *)
Definition clean_report : string :=
  "There is a focal consolidation in the right lower lobe consistent with pneumonia and no pleural effusion or pneumothorax is seen today".

(** A learner who negates pneumonia. *)
Definition pneumonia_sa : StudentAnalysis :=
  {| fallback_findings :=
       [ {| type := "pneumonia"; text := clean_report; negated := true |} ];
     report_text := clean_report |}.

(** A learner who names one type in two sentences, one of them negated, as
    [RuleBasedAnalyzer.analyze] reports it for the text
    [There is a small effusion. No effusion on the left.] *)
Definition overlap_findings : list RawFinding :=
  [ {| type := "effusion"; text := "there is a small effusion."; negated := false |};
    {| type := "effusion"; text := "no effusion on the left."; negated := true |} ].

Definition overlap_sa : StudentAnalysis :=
  {| fallback_findings := overlap_findings; report_text := clean_report |}.

(** A gold standard that carries the same type in both polarities. *)
Definition overlap_gold : list string := ["effusion"; "-effusion"].

(** A learner who asserts pneumonia and negates effusion. *)
Definition matching_sa : StudentAnalysis :=
  {| fallback_findings :=
       [ {| type := "pneumonia"; text := "there is pneumonia."; negated := false |};
         {| type := "effusion"; text := "no effusion."; negated := true |} ];
     report_text := clean_report |}.

(** A three-word report in which the analyzer finds nothing. *)
Definition silent_sa : StudentAnalysis :=
  {| fallback_findings := []; report_text := "Lungs are clear." |}.

(** A learner who asserts pneumothorax, and the same report without the
    assertion. *)
Definition pneumothorax_findings : list RawFinding :=
  [ {| type := "pneumothorax"; text := "there is a pneumothorax."; negated := false |} ].

Definition pneumothorax_sa : StudentAnalysis :=
  {| fallback_findings := pneumothorax_findings; report_text := clean_report |}.

Definition baseline_sa : StudentAnalysis :=
  {| fallback_findings := []; report_text := clean_report |}.

(** ** More Python string primitives *)

Module PyText.

(** [s.lstrip()] *)
Fixpoint lstrip (s : string) : string :=
  match s with
  | String c s' => if PyStr.isspace c then lstrip s' else s
  | EmptyString => EmptyString
  end.

(** [s.rstrip()] *)
Fixpoint rstrip (s : string) : string :=
  match s with
  | String c s' =>
      match rstrip s' with
      | EmptyString => if PyStr.isspace c then EmptyString else String c EmptyString
      | r => String c r
      end
  | EmptyString => EmptyString
  end.

(** [s.strip()] *)
Definition strip (s : string) : string := rstrip (lstrip s).

(** [s.split(sep)] for a separator of one character: never an empty list. *)
Fixpoint split_on (sep : ascii) (s : string) : list string :=
  match s with
  | EmptyString => [EmptyString]
  | String c s' =>
      if Ascii.eqb c sep then EmptyString :: split_on sep s'
      else match split_on sep s' with
           | piece :: rest => String c piece :: rest
           | [] => [String c EmptyString]
           end
  end.

(** [s.replace(c, '')] for one character [c]. *)
Fixpoint remove_char (c : ascii) (s : string) : string :=
  match s with
  | String a s' =>
      if Ascii.eqb a c then remove_char c s' else String a (remove_char c s')
  | EmptyString => EmptyString
  end.

(** [sep.join(l)] *)
Fixpoint join (sep : string) (l : list string) : string :=
  match l with
  | [] => EmptyString
  | [x] => x
  | x :: rest => x +:+ sep +:+ join sep rest
  end.

End PyText.

(** ** The rule-based analyzer: [RuleBasedAnalyzer] in
    [models/rule_based_fallback.py] *)

Module RuleBasedAnalyzer.

(** [self.patterns], in the order of the dictionary literal. *)
Definition patterns : list (string * list string) :=
  [ ("pneumonia", ["pneumonia"; "consolidation"; "infiltrate"]);
    ("effusion", ["effusion"; "fluid"]);
    ("pneumothorax", ["pneumothorax"]);
    ("cardiomegaly", ["cardiomegaly"; "enlarged heart"; "cardiac enlargement"]);
    ("edema", ["edema"; "pulmonary edema"]);
    ("opacity", ["opacity"; "opacities"; "opacification"]);
    ("atelectasis", ["atelectasis"; "collapse"]) ].

Definition negation_terms : list string :=
  ["no"; "not"; "without"; "negative"; "absent"; "clear of"; "free of"].

(** What [analyze] returns: the error dictionary when the spaCy model could
    not be loaded, the findings otherwise (the constant [confidence] and
    [method] entries are left out). *)
Inductive Result :=
  | Unavailable (error : string)
  | Analysis (findings : list RawFinding).

(** [result['findings']]: the error dictionary carries an empty list. *)
Definition findings_of (result : Result) : list RawFinding :=
  match result with
  | Unavailable _ => []
  | Analysis findings => findings
  end.

(** [any(neg in sentence_text for neg in self.negation_terms)] *)
Definition is_sentence_negated (sentence_text : string) : bool :=
  existsb (fun neg => PyStr.contains neg sentence_text) negation_terms.

Definition make_finding (finding_type sentence_text : string)
    (is_negated : bool) : RawFinding :=
  {| type := finding_type;
     text := PyText.strip sentence_text;
     negated := is_negated |}.

(** The [for keyword in keywords] loop: the first keyword found appends one
    finding and leaves the loop. *)
Fixpoint scan_keywords (finding_type sentence_text : string)
    (is_negated : bool) (keywords : list string)
    (findings : list RawFinding) : list RawFinding :=
  match keywords with
  | [] => findings
  | keyword :: rest =>
      if PyStr.contains keyword sentence_text
      then findings ++ [make_finding finding_type sentence_text is_negated]
      else scan_keywords finding_type sentence_text is_negated rest findings
  end.

(** The body of the [for sent in doc.sents] loop. *)
Definition scan_sentence (findings : list RawFinding)
    (sentence_text : string) : list RawFinding :=
  let is_negated := is_sentence_negated sentence_text in
  fold_left
    (fun acc entry =>
       scan_keywords (fst entry) sentence_text is_negated (snd entry) acc)
    patterns findings.

Definition collect (sentences : list string) : list RawFinding :=
  fold_left scan_sentence sentences [].

Definition finding_key (finding : RawFinding) : string * string :=
  (text finding, type finding).

(** The loop that removes duplicates: [unique_findings] and [seen]. *)
Definition dedupe_step (state : list RawFinding * gset (string * string))
    (finding : RawFinding) : list RawFinding * gset (string * string) :=
  if bool_decide (finding_key finding ∈ state.2) then state
  else (state.1 ++ [finding], {[finding_key finding]} ∪ state.2).

Definition unique (findings : list RawFinding) : list RawFinding :=
  (fold_left dedupe_step findings ([], ∅)).1.

(** [analyze]: [nlp] is the loaded spaCy model, seen as the function from a
    text to the texts of its sentences, or [None] when loading failed. *)
Definition analyze (nlp : option (string → list string))
    (report_text : string) : Result :=
  match nlp with
  | None => Unavailable "spaCy model not available"
  | Some sents => Analysis (unique (collect (sents (PyStr.lower report_text))))
  end.

End RuleBasedAnalyzer.

(** ** [RadBERTAnalyzer._extract_findings] in [models/radbert_analyzer.py] *)

Module RadBERTAnalyzer.

(** One entry of the list [_extract_findings] returns. *)
Record Finding := {
  type : string;
  detected : bool
}.

(** [key_terms], in the order of the dictionary literal. *)
Definition key_terms : list (string * list string) :=
  [ ("pneumonia", ["consolidation"; "opacity"; "infiltrate"]);
    ("effusion", ["fluid"; "pleural effusion"; "hydrothorax"]);
    ("pneumothorax", ["collapsed lung"; "air in pleural space"]);
    ("cardiomegaly", ["enlarged heart"; "cardiac enlargement"]);
    ("edema", ["pulmonary edema"; "fluid in lungs"]);
    ("atelectasis", ["collapse"; "volume loss"]);
    ("nodule", ["mass"; "lesion"; "tumor"]) ].

(** The body of the [for condition, terms in key_terms.items()] loop. *)
Definition check_condition (text_lower : string) (findings : list Finding)
    (entry : string * list string) : list Finding :=
  if existsb (fun term => PyStr.contains term text_lower) (snd entry)
  then findings ++ [ {| type := fst entry; detected := true |} ]
  else findings.

(** [_extract_findings(text, embeddings)]; the embeddings are not read. *)
Definition _extract_findings (text : string) : list Finding :=
  let text_lower := PyStr.lower text in
  fold_left (check_condition text_lower) key_terms [].

End RadBERTAnalyzer.

(** ** [CheXBertExtractor._get_category] in [models/chexbert_extractor.py] *)

Module CheXBertExtractor.

Definition LABELS : list string :=
  [ "No Finding"; "Enlarged Cardiomediastinum"; "Cardiomegaly";
    "Lung Opacity"; "Lung Lesion"; "Edema"; "Consolidation";
    "Pneumonia"; "Atelectasis"; "Pneumothorax"; "Pleural Effusion";
    "Pleural Other"; "Fracture"; "Support Devices" ].

(** [categories], in the order of the dictionary literal. *)
Definition categories : list (string * list string) :=
  [ ("cardiac", ["Cardiomegaly"; "Enlarged Cardiomediastinum"]);
    ("lung", ["Lung Opacity"; "Lung Lesion"; "Consolidation"; "Atelectasis"]);
    ("pleural", ["Pleural Effusion"; "Pleural Other"; "Pneumothorax"]);
    ("infection", ["Pneumonia"; "Edema"]);
    ("structural", ["Fracture"; "Support Devices"]);
    ("normal", ["No Finding"]) ].

(** The [for cat, labels in categories.items()] loop with its early return. *)
Fixpoint lookup_category (label : string)
    (cats : list (string * list string)) : string :=
  match cats with
  | [] => "other"
  | (cat, labels) :: rest =>
      if existsb (String.eqb label) labels then cat
      else lookup_category label rest
  end.

Definition _get_category (label : string) : string :=
  lookup_category label categories.

End CheXBertExtractor.

(** ** The service: [api_service.py] *)

Module ApiService.

(** The columns of a row of [Data_Entry_2017.csv] that [startup_event] reads,
    each as the text of its cell. *)
Record Row := {
  image_index : string;
  finding_labels : string;
  patient_age : string;
  patient_gender : string
}.

(** An entry of [case_library]. *)
Record Case := {
  case_id : string;
  image_path : string;
  patient_info : string;
  expert_text_findings : list string
}.

(** [label.lower().replace('_', '')] *)
Definition normalize_label (label : string) : string :=
  PyText.remove_char "_"%char (PyStr.lower label).

(** The labels of a row: the set comprehension over the pieces of
    [Finding Labels], emptied when it holds [nofinding]. *)
Definition expert_text_labels (row : Row) : gset string :=
  let labels : gset string :=
    list_to_set
      (List.map normalize_label (PyText.split_on "|"%char (finding_labels row))) in
  if bool_decide ("nofinding" ∈ labels) then ∅ else labels.

(** [s.split('.')[0]] *)
Definition case_id_base (s : string) : string :=
  List.hd EmptyString (PyText.split_on "."%char s).

(** The dictionary stored for a row. *)
Definition make_case (row : Row) : Case :=
  {| case_id := case_id_base (image_index row);
     image_path := "/static/images/" +:+ image_index row;
     patient_info := patient_age row +:+ " year old " +:+ patient_gender row;
     expert_text_findings := elements (expert_text_labels row) |}.

(** [[line.strip() for line in f if line.strip()]] *)
Definition selected_filenames (lines : list string) : list string :=
  List.map PyText.strip
    (List.filter
       (fun line => negb (String.eqb (PyText.strip line) EmptyString)) lines).

(** [df['Image Index'].isin(selected_filenames)] on one row. *)
Definition isin (x : string) (values : list string) : bool :=
  existsb (String.eqb x) values.

(** The loop over the selected rows: a later row replaces an earlier one with
    the same case id. *)
Definition build_case_library (rows : list Row)
    (selected : list string) : gmap string Case :=
  fold_left
    (fun library row =>
       <[case_id_base (image_index row) := make_case row]> library)
    (List.filter (fun row => isin (image_index row) selected) rows)
    ∅.

(** Step 2 of [startup_event]: [None] stands for a file that is not there,
    which leaves the library empty. *)
Definition startup_event (data_entry : option (list Row))
    (selected_cases : option (list string)) : gmap string Case :=
  match data_entry with
  | None => ∅
  | Some rows =>
      match selected_cases with
      | None => ∅
      | Some lines => build_case_library rows (selected_filenames lines)
      end
  end.

Inductive HTTPException :=
  | HTTPError (status_code : Z) (detail : string).

(** [get_case] *)
Definition get_case (case_library : gmap string Case)
    (case_id : string) : HTTPException + Case :=
  match case_library !! case_id_base case_id with
  | None => inl (HTTPError 404 ("Case not found: " +:+ case_id))
  | Some case_data => inr case_data
  end.

(** [s.replace(old, new)] for a non-empty [old]: [skip] counts the characters
    of a match that are still to be dropped. *)
Fixpoint replace_from (old new : string) (skip : nat) (s : string) : string :=
  match s with
  | EmptyString => EmptyString
  | String c s' =>
      match skip with
      | S k => replace_from old new k s'
      | O =>
          if String.prefix old s
          then new +:+ replace_from old new (String.length old - 1) s'
          else String c (replace_from old new 0 s')
      end
  end.

(** [image_path.replace("/static/", "static/")] *)
Definition actual_image_path (image_path : string) : string :=
  replace_from "/static/" "static/" 0 image_path.

(** The part of the response of [analyze_report] that does not depend on the
    two embedding models or on the clock. *)
Record AnalyzeResponse := {
  resp_case_id : string;
  resp_gold_standard_findings : list string;
  resp_fallback : RuleBasedAnalyzer.Result;
  resp_advanced_feedback : FeedbackRecord
}.

(** [analyze_report]: [nlp] is the spaCy model of the rule-based analyzer and
    [vision path] tells whether the largest logit of the image at [path]
    passes the threshold of [VisionAnalyzer.analyze_image]. *)
Definition analyze_report (nlp : option (string → list string))
    (vision : string → bool) (case_library : gmap string Case)
    (request_case_id student_report_text : string)
    : HTTPException + AnalyzeResponse :=
  let base := case_id_base request_case_id in
  match case_library !! base with
  | None =>
      inl (HTTPError 404 ("Case ID '" +:+ base +:+ "' not found in the library"))
  | Some case_data =>
      let expert : gset string := list_to_set (expert_text_findings case_data) in
      let fallback_results := RuleBasedAnalyzer.analyze nlp student_report_text in
      let student_analysis :=
        {| fallback_findings := RuleBasedAnalyzer.findings_of fallback_results;
           report_text := student_report_text |} in
      let visual_findings : gset string :=
        list_to_set (analyze_image (vision (actual_image_path (image_path case_data)))) in
      let gold := gold_standard_findings expert visual_findings in
      inr {| resp_case_id := base;
             resp_gold_standard_findings := gold;
             resp_fallback := fallback_results;
             resp_advanced_feedback := generate_feedback student_analysis gold |}
  end.

End ApiService.

(** ** The command-line client: [analyze_report.py] *)

Module Cli.

(** The values of the JSON objects the service returns for a case. *)
Inductive JValue :=
  | JString (s : string)
  | JList (items : list string).

(** The JSON object of an entry of the case library, as [/cases] serves it. *)
Definition case_json (c : ApiService.Case) : gmap string JValue :=
  <["case_id" := JString (ApiService.case_id c)]>
    (<["image_path" := JString (ApiService.image_path c)]>
       (<["patient_info" := JString (ApiService.patient_info c)]>
          (<["expert_text_findings" := JList (ApiService.expert_text_findings c)]>
             ∅))).

(** [get_all_cases]: the values of the library.  Python serves them in the
    order of insertion; the order of this list is another one, and nothing
    below depends on it. *)
Definition get_all_cases (case_library : gmap string ApiService.Case)
    : list (gmap string JValue) :=
  List.map (fun entry => case_json (snd entry)) (map_to_list case_library).

(** The outcome of a request of the client. *)
Inductive Response (A : Type) :=
  | RequestError
  | StatusError (status_code : string) (response_text : string)
  | Json (body : A).
Arguments RequestError {A}.
Arguments StatusError {A} _ _.
Arguments Json {A} _.

(** The exceptions that leave the commands uncaught. *)
Inductive PyError :=
  | KeyError (key : string)
  | TypeError.

(** What a command has done when it ends: the lines it wrote, the reports it
    posted, and the exception that ended it, if any. *)
Record Run := {
  printed : list string;
  posted : list (string * string);
  raised : option PyError
}.

Definition newline : string := String (ascii_of_nat 10) EmptyString.
Definition dquote : string := String (ascii_of_nat 34) EmptyString.

Definition API_BASE_URL : string := "http://127.0.0.1:8000".

Definition STUDENT_REPORTS : list (string * string) :=
  [ ("CASE001", "Impression: Lungs are clear. No acute findings.");
    ("CASE002", "Findings: There is some stuff in the right lung. Looks like pneumonia. Heart is big.");
    ("CASE003", "Patient has shortness of breath. There is fluid in the lungs.") ].

(** [STUDENT_REPORTS[case_id]], [None] when the key is not there. *)
Fixpoint student_report (case_id : string)
    (reports : list (string * string)) : option string :=
  match reports with
  | [] => None
  | (k, v) :: rest => if String.eqb k case_id then Some v else student_report case_id rest
  end.


Section Commands.

(** [str] of a list of strings, as an f-string writes it. *)
Variable repr_list : list string → string.

(** The request [POST /analyze] followed by [print_feedback] on its result:
    the lines printed, or the error of the request. *)
Variable post_and_print : string → string → Response (list string).

(** A value inside an f-string. *)
Definition format (v : JValue) : string :=
  match v with
  | JString s => s
  | JList items => repr_list items
  end.

(** [', '.join(v)]: a string is joined character by character. *)
Definition join_value (v : JValue) : string :=
  match v with
  | JString s =>
      PyText.join ", "
        (List.map (fun c => String c EmptyString) (list_ascii_of_string s))
  | JList items => PyText.join ", " items
  end.

(** The loop of [list_cases]. *)
Fixpoint list_cases_loop (cases : list (gmap string JValue))
    (out : list string) : Run :=
  match cases with
  | [] => {| printed := out; posted := []; raised := None |}
  | case :: rest =>
      match case !! "case_id" with
      | None => {| printed := out; posted := []; raised := Some (KeyError "case_id") |}
      | Some id =>
          let out1 := out ++ ["Case ID: " +:+ format id] in
          match case !! "patient_history" with
          | None =>
              {| printed := out1; posted := [];
                 raised := Some (KeyError "patient_history") |}
          | Some history =>
              let out2 := out1 ++ ["  History: " +:+ format history] in
              match case !! "expert_findings" with
              | None =>
                  {| printed := out2; posted := [];
                     raised := Some (KeyError "expert_findings") |}
              | Some findings =>
                  list_cases_loop rest
                    (out2 ++ ["  Expert Findings: " +:+ join_value findings
                              +:+ newline])
              end
          end
      end
  end.

(** [list_cases] on the outcome of [GET /cases]. *)
Definition list_cases (response : Response (list (gmap string JValue))) : Run :=
  let out := ["Fetching available cases from the API..."] in
  match response with
  | RequestError =>
      {| printed := out ++ ["Error: Could not connect to the API at "
                            +:+ API_BASE_URL +:+ ". Is the server running?"];
         posted := []; raised := None |}
  | StatusError status_code _ =>
      {| printed := out ++ ["Error: API returned a status of " +:+ status_code];
         posted := []; raised := None |}
  | Json cases => list_cases_loop cases (out ++ [newline +:+ "--- Case Library ---"])
  end.

(** The loop of [analyze_all]. *)
Fixpoint analyze_all_loop (cases : list (gmap string JValue))
    (out : list string) (sent : list (string * string)) : Run :=
  match cases with
  | [] => {| printed := out; posted := sent; raised := None |}
  | case :: rest =>
      match case !! "case_id" with
      | None => {| printed := out; posted := sent; raised := Some (KeyError "case_id") |}
      | Some (JList _) => {| printed := out; posted := sent; raised := Some TypeError |}
      | Some (JString case_id) =>
          match student_report case_id STUDENT_REPORTS with
          | None =>
              analyze_all_loop rest
                (out ++ [newline +:+ "Skipping " +:+ case_id
                         +:+ ": No pre-written student report found."])
                sent
          | Some student_text =>
              let out1 :=
                out ++ [newline +:+ newline +:+ ">>> Analyzing Case: " +:+ case_id] in
              match case !! "expert_findings" with
              | None =>
                  {| printed := out1; posted := sent;
                     raised := Some (KeyError "expert_findings") |}
              | Some findings =>
                  let out2 :=
                    out1 ++ ["    Expert Findings: " +:+ format findings;
                             "    Student's Report: " +:+ dquote +:+ student_text
                             +:+ dquote] in
                  let sent' := sent ++ [(case_id, student_text)] in
                  match post_and_print case_id student_text with
                  | Json lines => analyze_all_loop rest (out2 ++ lines) sent'
                  | RequestError =>
                      {| printed :=
                           out2 ++ ["Error: Could not connect to the API at "
                                    +:+ API_BASE_URL +:+ ". Is the server running?"];
                         posted := sent'; raised := None |}
                  | StatusError status_code response_text =>
                      {| printed :=
                           out2 ++ ["Error: API returned a status of " +:+ status_code
                                    +:+ ". Details: " +:+ response_text];
                         posted := sent'; raised := None |}
                  end
              end
          end
      end
  end.

(** [analyze_all] on the outcome of [GET /cases]. *)
Definition analyze_all (response : Response (list (gmap string JValue))) : Run :=
  let out := ["Analyzing pre-written student reports for all available cases..."] in
  match response with
  | RequestError =>
      {| printed := out ++ ["Error: Could not connect to the API at "
                            +:+ API_BASE_URL +:+ ". Is the server running?"];
         posted := []; raised := None |}
  | StatusError status_code response_text =>
      {| printed := out ++ ["Error: API returned a status of " +:+ status_code
                            +:+ ". Details: " +:+ response_text];
         posted := []; raised := None |}
  | Json cases => analyze_all_loop cases out []
  end.

End Commands.

End Cli.

(** The findings one sentence contributes: one per pattern with a keyword in
    the sentence, in the order of the patterns. *)
Definition sentence_findings (sentence_text : string) : list RawFinding :=
  List.map
    (fun entry =>
       RuleBasedAnalyzer.make_finding (fst entry) sentence_text
         (RuleBasedAnalyzer.is_sentence_negated sentence_text))
    (List.filter
       (fun entry => existsb (fun k => PyStr.contains k sentence_text) (snd entry))
       RuleBasedAnalyzer.patterns).

(** The last character of a non-empty string is not white space. *)
Fixpoint ends_nonspace (p : string) : bool :=
  match p with
  | EmptyString => false
  | String a EmptyString => negb (PyStr.isspace a)
  | String _ p' => ends_nonspace p'
  end.

(** The first character of a non-empty string is not white space. *)
Definition starts_nonspace (p : string) : bool :=
  match p with
  | EmptyString => false
  | String a _ => negb (PyStr.isspace a)
  end.

(** [c in s] for one character [c]. *)
Fixpoint has_char (c : ascii) (s : string) : bool :=
  match s with
  | EmptyString => false
  | String a s' => Ascii.eqb a c || has_char c s'
  end.

(** Three rows of the data file and the library of the first two. *)
Definition sample_rows : list ApiService.Row :=
  [ {| ApiService.image_index := "00000061_015.png";
       ApiService.finding_labels := "Effusion|Pneumonia";
       ApiService.patient_age := "77"; ApiService.patient_gender := "M" |};
    {| ApiService.image_index := "00000144_001.png";
       ApiService.finding_labels := "No Finding";
       ApiService.patient_age := "83"; ApiService.patient_gender := "M" |};
    {| ApiService.image_index := "00000165_001.png";
       ApiService.finding_labels := "Pleural_Thickening";
       ApiService.patient_age := "76"; ApiService.patient_gender := "F" |} ].

Definition sample_library : gmap string ApiService.Case :=
  ApiService.build_case_library sample_rows
    ["00000061_015.png"; "00000144_001.png"].

(** ** Membership in the parsed sets *)

Section Parsing.

Implicit Types (ef : list string) (fs : list RawFinding) (t f : string).

Lemma elem_of_expert_positives ef t :
  t ∈ expert_positives ef ↔ t ∈ ef ∧ PyStr.startswith_dash t = false.
Proof.
  unfold expert_positives.
  rewrite elem_of_list_to_set, !list_elem_of_In, filter_In, negb_true_iff.
  reflexivity.
Qed.

Lemma elem_of_expert_negatives ef t :
  t ∈ expert_negatives ef ↔
  ∃ f, f ∈ ef ∧ PyStr.startswith_dash f = true ∧ t = PyStr.lstrip_dash f.
Proof.
  unfold expert_negatives.
  rewrite elem_of_list_to_set, list_elem_of_In, in_map_iff.
  split.
  - intros (f & <- & Hf). apply filter_In in Hf as [Hin Hd].
    exists f. rewrite list_elem_of_In. auto.
  - intros (f & Hin & Hd & ->). exists f. split; [reflexivity|].
    apply filter_In. rewrite <- list_elem_of_In. auto.
Qed.

Lemma elem_of_student_positives fs t :
  t ∈ student_positives fs ↔ ∃ r, r ∈ fs ∧ type r = t ∧ negated r = false.
Proof.
  unfold student_positives.
  rewrite elem_of_list_to_set, list_elem_of_In, in_map_iff.
  split.
  - intros (r & <- & Hr). apply filter_In in Hr as [Hin Hn].
    exists r. rewrite list_elem_of_In. apply negb_true_iff in Hn. auto.
  - intros (r & Hin & <- & Hn). exists r. split; [reflexivity|].
    apply filter_In. rewrite <- list_elem_of_In, negb_true_iff. auto.
Qed.

Lemma elem_of_student_negatives fs t :
  t ∈ student_negatives fs ↔ ∃ r, r ∈ fs ∧ type r = t ∧ negated r = true.
Proof.
  unfold student_negatives.
  rewrite elem_of_list_to_set, list_elem_of_In, in_map_iff.
  split.
  - intros (r & <- & Hr). apply filter_In in Hr as [Hin Hn].
    exists r. rewrite list_elem_of_In. auto.
  - intros (r & Hin & <- & Hn). exists r. split; [reflexivity|].
    apply filter_In. rewrite <- list_elem_of_In. auto.
Qed.

End Parsing.

(** ** The marker of negated gold-standard findings *)

Lemma lstrip_dash_dashes (n : nat) (s : string) :
  PyStr.lstrip_dash (dashes n +:+ s) = PyStr.lstrip_dash s.
Proof. induction n as [|n IH]; simpl; [reflexivity | exact IH]. Qed.

Lemma lstrip_dash_no_marker (s : string) :
  PyStr.startswith_dash (PyStr.lstrip_dash s) = false.
Proof.
  induction s as [|c s IH]; simpl; [reflexivity|].
  destruct (Ascii.eqb c "-") eqn:E; [exact IH|]. simpl. exact E.
Qed.

Lemma lstrip_dash_decompose (s : string) :
  ∃ n, s = dashes n +:+ PyStr.lstrip_dash s.
Proof.
  induction s as [|c s [n IH]]; simpl.
  - exists O. reflexivity.
  - destruct (Ascii.eqb c "-") eqn:E.
    + apply Ascii.eqb_eq in E as ->. exists (S n). rewrite IH at 1. reflexivity.
    + exists O. reflexivity.
Qed.

(** C10: a gold-standard string goes to the negated set exactly when it begins
    with the marker ['-'], with every leading marker removed (the stripped
    string is the original without a run of leading markers and does not begin
    with one, so [-x] and [--x] both give [x]); a string that does not begin
    with the marker goes to the asserted set as it is. *)
Theorem expert_findings_marker_parsing (expert_findings : list string) (t : string) :
  (t ∈ expert_negatives expert_findings ↔
     ∃ f, f ∈ expert_findings ∧ PyStr.startswith_dash f = true
          ∧ t = PyStr.lstrip_dash f)
  ∧ (t ∈ expert_positives expert_findings ↔
     t ∈ expert_findings ∧ PyStr.startswith_dash t = false)
  ∧ (∃ n, t = dashes n +:+ PyStr.lstrip_dash t)
  ∧ PyStr.startswith_dash (PyStr.lstrip_dash t) = false
  ∧ (∀ n, PyStr.lstrip_dash (dashes n +:+ t) = PyStr.lstrip_dash t)
  ∧ expert_negatives ["-x"] = {["x"]}
  ∧ expert_negatives ["--x"] = {["x"]}
  ∧ expert_positives ["-x"; "--x"] = ∅.
Proof.
  split; [apply elem_of_expert_negatives|].
  split; [apply elem_of_expert_positives|].
  split; [apply lstrip_dash_decompose|].
  split; [apply lstrip_dash_no_marker|].
  split; [intros n; apply lstrip_dash_dashes|].
  unfold expert_negatives, expert_positives; simpl.
  repeat split; set_solver.
Qed.

(** C2 (counterexample): a type mentioned once unnegated and once negated is
    in the asserted set and in the negated set; the two sets are not
    disjoint. *)
Lemma finding_set_builder_overlap :
  "effusion" ∈ student_positives overlap_findings
  ∧ "effusion" ∈ student_negatives overlap_findings
  ∧ ¬ (student_positives overlap_findings ## student_negatives overlap_findings).
Proof.
  assert (Hp : "effusion" ∈ student_positives overlap_findings).
  { apply elem_of_student_positives.
    exists {| type := "effusion"; text := "there is a small effusion.";
              negated := false |}.
    split; [|split; reflexivity]. unfold overlap_findings. set_solver. }
  assert (Hn : "effusion" ∈ student_negatives overlap_findings).
  { apply elem_of_student_negatives.
    exists {| type := "effusion"; text := "no effusion on the left.";
              negated := true |}.
    split; [|split; reflexivity]. unfold overlap_findings. set_solver. }
  split; [exact Hp|]. split; [exact Hn|].
  intros Hd. exact (Hd _ Hp Hn).
Qed.

(** C2 (amended): a type is in the negated set exactly when some candidate of
    that type is flagged negated, and in the asserted set exactly when some
    candidate of that type is not flagged negated; the two sets share exactly
    the types that have both kinds of mention. *)
Theorem finding_set_builder_membership (findings : list RawFinding) (t : string) :
  (t ∈ student_negatives findings ↔
     ∃ r, r ∈ findings ∧ type r = t ∧ negated r = true)
  ∧ (t ∈ student_positives findings ↔
     ∃ r, r ∈ findings ∧ type r = t ∧ negated r = false)
  ∧ (t ∈ student_positives findings ∩ student_negatives findings ↔
     (∃ r, r ∈ findings ∧ type r = t ∧ negated r = false)
     ∧ (∃ r, r ∈ findings ∧ type r = t ∧ negated r = true)).
Proof.
  split; [apply elem_of_student_negatives|].
  split; [apply elem_of_student_positives|].
  rewrite elem_of_intersection, elem_of_student_positives,
    elem_of_student_negatives.
  reflexivity.
Qed.

(** ** The style critic *)

Section StyleCritic.

Variable text_lower : string.

Lemma fold_check_phrase (phrases acc : list string) :
  fold_left (check_phrase text_lower) phrases acc =
  acc ++ List.map phrase_advisory
           (List.filter (fun phrase => PyStr.contains phrase text_lower) phrases).
Proof.
  revert acc. induction phrases as [|p ps IH]; intros acc; simpl.
  - symmetry. apply app_nil_r.
  - rewrite IH. unfold check_phrase.
    destruct (PyStr.contains p text_lower); simpl; [|reflexivity].
    rewrite <- app_assoc. reflexivity.
Qed.

Lemma length_flagged_phrases : (length (flagged_phrases text_lower) <= 5)%nat.
Proof.
  unfold flagged_phrases.
  etransitivity; [apply List.filter_length_le|]. simpl. lia.
Qed.

End StyleCritic.

Lemma check_conciseness_app (word_count : Z) (acc : list string) :
  check_conciseness word_count acc = acc ++ length_advisories word_count.
Proof.
  unfold length_advisories, check_conciseness.
  destruct (word_count <? 15); [reflexivity|].
  destruct (word_count >? 100); [reflexivity|].
  symmetry. apply app_nil_r.
Qed.

Lemma check_report_style_eq (report_text : string) :
  _check_report_style report_text =
  List.map phrase_advisory (flagged_phrases (PyStr.lower report_text))
    ++ length_advisories (PyStr.split_len report_text).
Proof.
  unfold _check_report_style.
  rewrite check_conciseness_app, fold_check_phrase. reflexivity.
Qed.

Lemma length_check_report_style (report_text : string) :
  0 <= len (_check_report_style report_text) <= 6.
Proof.
  unfold len. rewrite check_report_style_eq, length_app, length_map.
  pose proof (length_flagged_phrases (PyStr.lower report_text)) as H5.
  assert (length (length_advisories (PyStr.split_len report_text)) <= 1)%nat.
  { unfold length_advisories, check_conciseness.
    destruct (_ <? 15); [simpl; lia|]. destruct (_ >? 100); simpl; lia. }
  lia.
Qed.

(** No phrase advisory reads like one of the two length advisories. *)
Lemma phrase_advisory_not_length (phrase : string) :
  In phrase unprofessional_phrases →
  phrase_advisory phrase ≠ brief_advisory
  ∧ phrase_advisory phrase ≠ verbose_advisory.
Proof.
  assert (Hall : forallb (fun p =>
              negb (String.eqb (phrase_advisory p) brief_advisory)
              && negb (String.eqb (phrase_advisory p) verbose_advisory))
            unprofessional_phrases = true) by (vm_compute; reflexivity).
  intros Hin. rewrite forallb_forall in Hall. specialize (Hall _ Hin).
  apply andb_true_iff in Hall as [Hb Hv].
  apply negb_true_iff in Hb, Hv. apply String.eqb_neq in Hb, Hv. auto.
Qed.

Lemma length_advisory_not_phrase (text_lower a : string) :
  a = brief_advisory ∨ a = verbose_advisory →
  ¬ In a (List.map phrase_advisory (flagged_phrases text_lower)).
Proof.
  intros Ha Hin. apply in_map_iff in Hin as (p & Hp & Hin).
  apply filter_In in Hin as [Hin _].
  destruct (phrase_advisory_not_length p Hin) as [Hb Hv].
  destruct Ha; congruence.
Qed.

Lemma brief_not_verbose : brief_advisory ≠ verbose_advisory.
Proof. discriminate. Qed.

(** C8: the brevity advisory is raised exactly when the report has fewer than
    15 words, the verbosity advisory exactly when it has more than 100, never
    both; the advisories are those of the flagged phrases, in the order of the
    phrase list, followed by the length advisory if there is one. *)
Theorem style_critic_word_count (report_text : string) :
  (brief_advisory ∈ _check_report_style report_text ↔
     PyStr.split_len report_text < 15)
  ∧ (verbose_advisory ∈ _check_report_style report_text ↔
     PyStr.split_len report_text > 100)
  ∧ ¬ (brief_advisory ∈ _check_report_style report_text
       ∧ verbose_advisory ∈ _check_report_style report_text)
  ∧ _check_report_style report_text =
      List.map phrase_advisory
        (List.filter (fun phrase => PyStr.contains phrase (PyStr.lower report_text))
           unprofessional_phrases)
      ++ (if PyStr.split_len report_text <? 15 then [brief_advisory]
          else if PyStr.split_len report_text >? 100 then [verbose_advisory]
          else []).
Proof.
  assert (Hb : brief_advisory ∈ _check_report_style report_text ↔
               PyStr.split_len report_text < 15).
  { rewrite check_report_style_eq, list_elem_of_In, in_app_iff.
    unfold length_advisories, check_conciseness. split.
    - intros [H|H];
        [exfalso; apply (length_advisory_not_phrase _ _ (or_introl eq_refl) H)|].
      destruct (Z.ltb_spec (PyStr.split_len report_text) 15); [assumption|].
      destruct (_ >? 100); simpl in H; [|tauto].
      destruct H as [H|[]]. symmetry in H. destruct (brief_not_verbose H).
    - intros H. right. apply Z.ltb_lt in H. rewrite H. simpl. auto. }
  assert (Hv : verbose_advisory ∈ _check_report_style report_text ↔
               PyStr.split_len report_text > 100).
  { rewrite check_report_style_eq, list_elem_of_In, in_app_iff.
    unfold length_advisories, check_conciseness. split.
    - intros [H|H];
        [exfalso; apply (length_advisory_not_phrase _ _ (or_intror eq_refl) H)|].
      destruct (Z.ltb_spec (PyStr.split_len report_text) 15).
      + simpl in H. destruct H as [H|[]]. destruct (brief_not_verbose H).
      + destruct (Z.gtb_spec (PyStr.split_len report_text) 100); [lia|].
        simpl in H. tauto.
    - intros H. right.
      destruct (Z.ltb_spec (PyStr.split_len report_text) 15); [lia|].
      destruct (Z.gtb_spec (PyStr.split_len report_text) 100); [|lia].
      simpl. auto. }
  split; [exact Hb|]. split; [exact Hv|]. split.
  - rewrite Hb, Hv. lia.
  - rewrite check_report_style_eq. reflexivity.
Qed.

(** ** The score *)

Lemma len_elements (X : gset string) : len (elements X) = Z.of_nat (size X).
Proof. reflexivity. Qed.

Lemma len_nonneg (l : list string) : 0 <= len l.
Proof. unfold len. lia. Qed.

(** The penalties only lower the score. *)
Lemma raw_score_le_100 (c : Categories) : raw_score c <= 100.
Proof.
  unfold raw_score.
  pose proof (len_nonneg (cat_missed_findings c)).
  pose proof (len_nonneg (cat_missed_negations c)).
  pose proof (len_nonneg (cat_misinterpretations c)).
  pose proof (len_nonneg (cat_negation_errors c)).
  pose proof (len_nonneg (cat_clarity_and_style_feedback c)).
  lia.
Qed.

Lemma overall_score_eq (sa : StudentAnalysis) (ef : list string) :
  overall_score (generate_feedback sa ef) =
  Z.max 0 (raw_score (categorize sa ef)).
Proof.
  unfold generate_feedback, assemble; simpl.
  pose proof (raw_score_le_100 (categorize sa ef)). lia.
Qed.

(** The score before clamping, in terms of the four parsed sets. *)
Lemma raw_score_sets (sa : StudentAnalysis) (ef : list string) :
  raw_score (categorize sa ef) =
  100
  - Z.of_nat (size (expert_positives ef ∖ student_positives (fallback_findings sa))) * 15
  - Z.of_nat (size (expert_negatives ef ∖ student_negatives (fallback_findings sa))) * 5
  - Z.of_nat (size (student_positives (fallback_findings sa) ∖ expert_positives ef)) * 20
  - Z.of_nat (size (student_positives (fallback_findings sa) ∩ expert_negatives ef)) * 25
  - len (_check_report_style (report_text sa)) * 5.
Proof. reflexivity. Qed.

(** The first scenario of the testable properties: one finding found, one
    missed, a clean report. *)
Example scenario_one_missed :
  generate_feedback
    {| fallback_findings :=
         [ {| type := "pneumonia"; text := "there is pneumonia."; negated := false |} ];
       report_text := clean_report |}
    ["pneumonia"; "effusion"] =
  {| correct_observations := ["pneumonia"];
     missed_findings := ["effusion"];
     misinterpretations := [];
     clarity_and_style := [];
     tips := general_tips;
     overall_score := 85 |}.
Proof. vm_compute; reflexivity. Qed.

(** C6: the score is an integer between 0 and 100, whatever the learner's
    findings, the gold standard and the report text are. *)
Theorem overall_score_bounds (student_analysis : StudentAnalysis)
    (expert_findings : list string) :
  0 <= overall_score (generate_feedback student_analysis expert_findings) <= 100.
Proof. unfold generate_feedback, assemble; simpl. lia. Qed.

(** C3: the plain finding types of the three learner-side lists (the lists
    before the phrased negation entries are appended) are pairwise disjoint,
    and each returned list is its plain part followed by its phrased part. *)
Theorem base_categories_disjoint (student_analysis : StudentAnalysis)
    (expert_findings : list string) :
  (∀ t, t ∈ cat_correct_observations (categorize student_analysis expert_findings) →
        t ∉ cat_missed_findings (categorize student_analysis expert_findings))
  ∧ (∀ t, t ∈ cat_correct_observations (categorize student_analysis expert_findings) →
        t ∉ cat_misinterpretations (categorize student_analysis expert_findings))
  ∧ (∀ t, t ∈ cat_missed_findings (categorize student_analysis expert_findings) →
        t ∉ cat_misinterpretations (categorize student_analysis expert_findings))
  ∧ correct_observations (generate_feedback student_analysis expert_findings) =
      cat_correct_observations (categorize student_analysis expert_findings)
      ++ List.map absence_of
           (cat_correct_negations (categorize student_analysis expert_findings))
  ∧ missed_findings (generate_feedback student_analysis expert_findings) =
      cat_missed_findings (categorize student_analysis expert_findings)
      ++ List.map missed_absence_of
           (cat_missed_negations (categorize student_analysis expert_findings))
  ∧ misinterpretations (generate_feedback student_analysis expert_findings) =
      cat_misinterpretations (categorize student_analysis expert_findings)
      ++ List.map incorrectly_identified
           (cat_negation_errors (categorize student_analysis expert_findings)).
Proof.
  unfold categorize; simpl.
  repeat split; intros t; rewrite !elem_of_elements; set_solver.
Qed.

(** C5: one more missed asserted finding costs exactly 15 points, down to the
    floor of 0. *)
Theorem missed_finding_costs_15 (student_analysis : StudentAnalysis)
    (expert_findings expert_findings' : list string) (x : string) :
  x ∉ expert_positives expert_findings →
  x ∉ student_positives (fallback_findings student_analysis) →
  x ∉ student_negatives (fallback_findings student_analysis) →
  expert_positives expert_findings' = {[x]} ∪ expert_positives expert_findings →
  expert_negatives expert_findings' = expert_negatives expert_findings →
  overall_score (generate_feedback student_analysis expert_findings') =
  Z.max 0 (overall_score (generate_feedback student_analysis expert_findings) - 15).
Proof.
  intros Hep Hsp Hsn Hpos Hneg.
  rewrite !overall_score_eq, !raw_score_sets, Hpos, Hneg.
  set (sp := student_positives (fallback_findings student_analysis)) in *.
  set (ep := expert_positives expert_findings) in *.
  assert (Hmiss : ({[x]} ∪ ep) ∖ sp = {[x]} ∪ (ep ∖ sp)) by set_solver.
  assert (Hmis : sp ∖ ({[x]} ∪ ep) = sp ∖ ep) by set_solver.
  rewrite Hmiss, Hmis, size_union by set_solver.
  rewrite size_singleton. lia.
Qed.

Lemma missed_finding_costs_15_witness :
  overall_score (generate_feedback pneumonia_sa ["effusion"; "pneumonia"]) =
  Z.max 0 (overall_score (generate_feedback pneumonia_sa ["pneumonia"]) - 15).
Proof.
  apply (missed_finding_costs_15 pneumonia_sa ["pneumonia"]
           ["effusion"; "pneumonia"] "effusion").
  - unfold expert_positives; simpl. set_solver.
  - unfold student_positives; simpl. set_solver.
  - unfold student_negatives; simpl. set_solver.
  - unfold expert_positives; simpl. set_solver.
  - reflexivity.
Defined.

(** ** Identical learner and gold-standard sets *)

(** C4 (counterexample): the learner's sets equal the gold standard's and no
    style advisory is raised, yet the shared type counts as a negation error:
    the score is 75 and [misinterpretations] is not empty. *)
Lemma identity_fails_on_overlap :
  student_positives (fallback_findings overlap_sa) = expert_positives overlap_gold
  ∧ student_negatives (fallback_findings overlap_sa) = expert_negatives overlap_gold
  ∧ clarity_and_style (generate_feedback overlap_sa overlap_gold) = []
  ∧ overall_score (generate_feedback overlap_sa overlap_gold) = 75
  ∧ overall_score (generate_feedback overlap_sa overlap_gold) ≠ 100
  ∧ misinterpretations (generate_feedback overlap_sa overlap_gold) =
      ["Incorrectly identified effusion (should be absent)"]
  ∧ misinterpretations (generate_feedback overlap_sa overlap_gold) ≠ [].
Proof. repeat split; vm_compute; congruence. Qed.

(** C4 (amended): when the learner's sets equal the gold standard's, the gold
    standard asserts and negates no common type, and no style advisory is
    raised, the score is 100 and nothing is missed or misinterpreted. *)
Theorem identity_score_100 (student_analysis : StudentAnalysis)
    (expert_findings : list string) :
  student_positives (fallback_findings student_analysis) =
    expert_positives expert_findings →
  student_negatives (fallback_findings student_analysis) =
    expert_negatives expert_findings →
  expert_positives expert_findings ## expert_negatives expert_findings →
  _check_report_style (report_text student_analysis) = [] →
  overall_score (generate_feedback student_analysis expert_findings) = 100
  ∧ missed_findings (generate_feedback student_analysis expert_findings) = []
  ∧ misinterpretations (generate_feedback student_analysis expert_findings) = [].
Proof.
  intros Hp Hn Hdisj Hstyle.
  rewrite overall_score_eq, raw_score_sets.
  unfold generate_feedback, assemble, categorize; simpl.
  rewrite Hp, Hn, Hstyle.
  set (ep := expert_positives expert_findings) in *.
  set (en := expert_negatives expert_findings) in *.
  assert (H1 : ep ∖ ep = ∅) by set_solver.
  assert (H2 : en ∖ en = ∅) by set_solver.
  assert (H3 : ep ∩ en = ∅) by set_solver.
  rewrite H1, H2, H3, size_empty, elements_empty. simpl.
  repeat split.
Qed.

Lemma identity_score_100_witness :
  overall_score (generate_feedback matching_sa ["pneumonia"; "-effusion"]) = 100
  ∧ missed_findings (generate_feedback matching_sa ["pneumonia"; "-effusion"]) = []
  ∧ misinterpretations (generate_feedback matching_sa ["pneumonia"; "-effusion"]) = [].
Proof.
  apply (identity_score_100 matching_sa ["pneumonia"; "-effusion"]).
  - vm_compute; reflexivity.
  - vm_compute; reflexivity.
  - unfold expert_positives, expert_negatives; simpl. set_solver.
  - vm_compute; reflexivity.
Defined.

(** ** The empty gold standard *)

(** C7 (counterexample): with an empty gold standard and a learner who asserts
    nothing, a three-word report still loses 5 points to the brevity
    advisory. *)
Lemma empty_gold_brief_report :
  student_positives (fallback_findings silent_sa) = ∅
  ∧ gold_standard_findings ∅ ∅ = []
  ∧ overall_score (generate_feedback silent_sa (gold_standard_findings ∅ ∅)) = 95
  ∧ overall_score (generate_feedback silent_sa (gold_standard_findings ∅ ∅)) ≠ 100.
Proof. repeat split; vm_compute; congruence. Qed.

(** C7 (amended): with an empty gold standard nothing is missed, and the score
    is 100 less 20 per finding the learner asserts and 5 per style advisory
    (not below 0): it is 100 exactly when the learner asserts nothing and the
    report raises no style advisory. *)
Theorem empty_gold_standard (student_analysis : StudentAnalysis) :
  gold_standard_findings ∅ ∅ = []
  ∧ missed_findings (generate_feedback student_analysis []) = []
  ∧ overall_score (generate_feedback student_analysis []) =
      Z.max 0 (100
               - 20 * Z.of_nat (size (student_positives (fallback_findings student_analysis)))
               - 5 * len (_check_report_style (report_text student_analysis)))
  ∧ (overall_score (generate_feedback student_analysis []) = 100 ↔
       student_positives (fallback_findings student_analysis) = ∅
       ∧ _check_report_style (report_text student_analysis) = []).
Proof.
  set (sp := student_positives (fallback_findings student_analysis)).
  set (style := _check_report_style (report_text student_analysis)).
  assert (Hgold : gold_standard_findings ∅ ∅ = []).
  { unfold gold_standard_findings. rewrite (left_id_L ∅ (∪)).
    apply elements_empty. }
  assert (Hmissed : missed_findings (generate_feedback student_analysis []) = []).
  { unfold generate_feedback, assemble, categorize; simpl.
    change (expert_positives []) with (∅ : gset string).
    change (expert_negatives []) with (∅ : gset string).
    assert (H : (∅ : gset string) ∖ sp = ∅) by set_solver.
    fold sp. rewrite H, elements_empty.
    assert (H' : (∅ : gset string)
                 ∖ student_negatives (fallback_findings student_analysis) = ∅)
      by set_solver.
    rewrite H', elements_empty. reflexivity. }
  assert (Hscore : overall_score (generate_feedback student_analysis []) =
                   Z.max 0 (100 - 20 * Z.of_nat (size sp) - 5 * len style)).
  { rewrite overall_score_eq, raw_score_sets.
    change (expert_positives []) with (∅ : gset string).
    change (expert_negatives []) with (∅ : gset string).
    fold sp style.
    assert (H1 : (∅ : gset string) ∖ sp = ∅) by set_solver.
    assert (H2 : (∅ : gset string)
                 ∖ student_negatives (fallback_findings student_analysis) = ∅)
      by set_solver.
    assert (H3 : sp ∖ ∅ = sp) by set_solver.
    assert (H4 : sp ∩ ∅ = ∅) by set_solver.
    rewrite H1, H2, H3, H4, size_empty. lia. }
  split; [exact Hgold|]. split; [exact Hmissed|]. split; [exact Hscore|].
  rewrite Hscore. pose proof (len_nonneg style) as Hlen. split.
  - intros H. assert (size sp = 0%nat ∧ len style = 0) as [Hs Hl] by lia.
    split; [apply size_empty_inv in Hs; apply leibniz_equiv; exact Hs|].
    unfold len in Hl. destruct style; [reflexivity | simpl in Hl; lia].
  - intros [-> ->]. rewrite size_empty. reflexivity.
Qed.

(** ** Asserting a finding the gold standard negates *)

(** C1 (counterexample): on the scenario's input the list holds the plain type
    and the phrase [Incorrectly identified ...], not the phrase
    [incorrectly asserted ...], and the score is 50 against a baseline of 95:
    45 lower, not 25. *)
Lemma negation_error_not_25 :
  student_positives (fallback_findings pneumothorax_sa) = {["pneumothorax"]}
  ∧ student_negatives (fallback_findings pneumothorax_sa) = ∅
  ∧ expert_positives ["-pneumothorax"] = ∅
  ∧ expert_negatives ["-pneumothorax"] = {["pneumothorax"]}
  ∧ ("incorrectly asserted pneumothorax (should be absent)"
      ∉ misinterpretations (generate_feedback pneumothorax_sa ["-pneumothorax"]))
  ∧ overall_score (generate_feedback pneumothorax_sa ["-pneumothorax"]) = 50
  ∧ overall_score (generate_feedback baseline_sa ["-pneumothorax"]) = 95
  ∧ overall_score (generate_feedback pneumothorax_sa ["-pneumothorax"])
      ≠ overall_score (generate_feedback baseline_sa ["-pneumothorax"]) - 25.
Proof.
  repeat split; try (vm_compute; congruence).
  rewrite list_elem_of_In. vm_compute. intros [H|[H|[]]]; discriminate H.
Qed.

(** C1 (amended): when the gold standard negates pneumothorax and asserts
    nothing, and the learner asserts pneumothorax and negates nothing,
    [misinterpretations] holds the type itself and the phrase
    [Incorrectly identified pneumothorax (should be absent)], and the score is
    exactly 45 below the score of the same report without the assertion: 20
    for the misinterpretation and 25 for the negation error. *)
Theorem negation_error_costs_45 (findings findings0 : list RawFinding)
    (report : string) (expert_findings : list string) :
  expert_positives expert_findings = ∅ →
  expert_negatives expert_findings = {["pneumothorax"]} →
  student_positives findings = {["pneumothorax"]} →
  student_negatives findings = ∅ →
  student_positives findings0 = ∅ →
  student_negatives findings0 = ∅ →
  misinterpretations
    (generate_feedback {| fallback_findings := findings; report_text := report |}
       expert_findings) =
    ["pneumothorax"; "Incorrectly identified pneumothorax (should be absent)"]
  ∧ overall_score
      (generate_feedback {| fallback_findings := findings; report_text := report |}
         expert_findings) =
    overall_score
      (generate_feedback {| fallback_findings := findings0; report_text := report |}
         expert_findings) - 45.
Proof.
  intros Hep Hen Hsp Hsn Hsp0 Hsn0.
  assert (Ha : ({["pneumothorax"]} : gset string) ∖ ∅ = {["pneumothorax"]})
    by set_solver.
  assert (Hb : ({["pneumothorax"]} : gset string) ∩ {["pneumothorax"]}
               = {["pneumothorax"]}) by set_solver.
  assert (Hc : (∅ : gset string) ∖ {["pneumothorax"]} = ∅) by set_solver.
  assert (Hd : (∅ : gset string) ∖ ∅ = ∅) by set_solver.
  assert (He : (∅ : gset string) ∩ {["pneumothorax"]} = ∅) by set_solver.
  split.
  - unfold generate_feedback, assemble, categorize; simpl.
    rewrite Hep, Hen, Hsp, Ha, Hb, !elements_singleton. reflexivity.
  - rewrite !overall_score_eq, !raw_score_sets; simpl.
    rewrite Hep, Hen, Hsp, Hsn, Hsp0, Hsn0, Ha, Hb, Hc, Hd, He.
    rewrite size_singleton, size_empty.
    pose proof (length_check_report_style report). lia.
Qed.

Lemma negation_error_costs_45_witness :
  misinterpretations (generate_feedback pneumothorax_sa ["-pneumothorax"]) =
    ["pneumothorax"; "Incorrectly identified pneumothorax (should be absent)"]
  ∧ overall_score (generate_feedback pneumothorax_sa ["-pneumothorax"]) =
    overall_score (generate_feedback baseline_sa ["-pneumothorax"]) - 45.
Proof.
  apply (negation_error_costs_45 pneumothorax_findings [] clean_report
           ["-pneumothorax"]); vm_compute; reflexivity.
Defined.

(** ** The gold standard assembler *)

Lemma elem_of_gold_standard_findings (E V : gset string) (t : string) :
  t ∈ gold_standard_findings E V ↔ t ∈ E ∨ t ∈ V.
Proof.
  unfold gold_standard_findings. rewrite elem_of_elements, elem_of_union.
  reflexivity.
Qed.

(** C9: the asserted gold set is the union of the expert's asserted findings
    and the auxiliary detector's findings, the negated gold set is the
    expert's negated set, and supplying the two inputs of the union in the
    other order gives the same findings and the same two sets. *)
Theorem gold_standard_union (expert_text_findings visual_findings : gset string) :
  (∀ v, v ∈ visual_findings → PyStr.startswith_dash v = false) →
  expert_positives (gold_standard_findings expert_text_findings visual_findings) =
    expert_positives (elements expert_text_findings) ∪ visual_findings
  ∧ expert_negatives (gold_standard_findings expert_text_findings visual_findings) =
    expert_negatives (elements expert_text_findings)
  ∧ gold_standard_findings visual_findings expert_text_findings
      ≡ₚ gold_standard_findings expert_text_findings visual_findings
  ∧ expert_positives (gold_standard_findings visual_findings expert_text_findings) =
    expert_positives (gold_standard_findings expert_text_findings visual_findings)
  ∧ expert_negatives (gold_standard_findings visual_findings expert_text_findings) =
    expert_negatives (gold_standard_findings expert_text_findings visual_findings)
  ∧ gold_standard_findings expert_text_findings expert_text_findings
      ≡ₚ elements expert_text_findings.
Proof.
  intros Hv.
  assert (Hcomm : gold_standard_findings visual_findings expert_text_findings =
                  gold_standard_findings expert_text_findings visual_findings).
  { unfold gold_standard_findings. f_equal. apply (comm_L (∪)). }
  split; [|split; [|split; [|split; [|split]]]].
  - apply set_eq. intros t.
    rewrite elem_of_union, !elem_of_expert_positives,
      elem_of_gold_standard_findings, elem_of_elements.
    specialize (Hv t). tauto.
  - apply set_eq. intros t. rewrite !elem_of_expert_negatives. split.
    + intros (f & Hin & Hd & ->).
      apply elem_of_gold_standard_findings in Hin as [Hin|Hin].
      * exists f. rewrite elem_of_elements. auto.
      * rewrite (Hv f Hin) in Hd. discriminate Hd.
    + intros (f & Hin & Hd & ->). exists f.
      rewrite elem_of_gold_standard_findings. rewrite elem_of_elements in Hin.
      auto.
  - rewrite Hcomm. reflexivity.
  - rewrite Hcomm. reflexivity.
  - rewrite Hcomm. reflexivity.
  - unfold gold_standard_findings. rewrite (idemp_L (∪)). reflexivity.
Qed.

Lemma gold_standard_union_witness :
  expert_positives
    (gold_standard_findings {["pneumonia"; "-pneumothorax"]}
       (list_to_set (analyze_image true))) =
    expert_positives (elements ({["pneumonia"; "-pneumothorax"]} : gset string))
      ∪ list_to_set (analyze_image true)
  ∧ expert_negatives
      (gold_standard_findings {["pneumonia"; "-pneumothorax"]}
         (list_to_set (analyze_image true))) =
    expert_negatives (elements ({["pneumonia"; "-pneumothorax"]} : gset string)).
Proof.
  pose proof (gold_standard_union {["pneumonia"; "-pneumothorax"]}
                (list_to_set (analyze_image true))) as H.
  destruct H as (H1 & H2 & _).
  - intros v Hv. simpl in Hv.
    apply elem_of_union in Hv as [Hv|Hv].
    + apply elem_of_singleton in Hv. subst v. reflexivity.
    + apply elem_of_empty in Hv. destruct Hv.
  - split; assumption.
Defined.

(** ** Further properties of the style critic *)

Lemma phrase_advisory_inj (p q : string) :
  In p unprofessional_phrases → In q unprofessional_phrases →
  phrase_advisory p = phrase_advisory q → p = q.
Proof.
  assert (Hall : forallb (fun a => forallb (fun b =>
              implb (String.eqb (phrase_advisory a) (phrase_advisory b))
                    (String.eqb a b)) unprofessional_phrases)
            unprofessional_phrases = true) by (vm_compute; reflexivity).
  intros Hp Hq Heq. rewrite forallb_forall in Hall.
  specialize (Hall p Hp). rewrite forallb_forall in Hall.
  specialize (Hall q Hq). apply String.eqb_eq in Heq. rewrite Heq in Hall.
  simpl in Hall. apply String.eqb_eq. exact Hall.
Qed.

(** X1: a configured phrase is reported exactly when it occurs somewhere in
    the lower-cased report, whatever the case of the report and whether or not
    the occurrence is a whole word. *)
Theorem phrase_reported_iff_substring (report_text phrase : string) :
  In phrase unprofessional_phrases →
  (phrase_advisory phrase ∈ _check_report_style report_text ↔
   PyStr.contains phrase (PyStr.lower report_text) = true).
Proof.
  intros Hin.
  rewrite check_report_style_eq, list_elem_of_In, in_app_iff, in_map_iff.
  unfold flagged_phrases. split.
  - intros [(q & Heq & Hq)|Hlen].
    + apply filter_In in Hq as [Hq Hc].
      apply phrase_advisory_inj in Heq; [subst q; exact Hc|assumption..].
    + destruct (phrase_advisory_not_length phrase Hin) as [Hb Hv].
      unfold length_advisories, check_conciseness in Hlen.
      destruct (_ <? 15); [destruct Hlen as [H|[]]; congruence|].
      destruct (_ >? 100); [destruct Hlen as [H|[]]; congruence|].
      destruct Hlen.
  - intros Hc. left. exists phrase. split; [reflexivity|].
    apply filter_In. auto.
Qed.

Lemma phrase_reported_iff_substring_witness :
  phrase_advisory "stuff" ∈ _check_report_style "Some STUFFY nose." ↔
  PyStr.contains "stuff" (PyStr.lower "Some STUFFY nose.") = true.
Proof.
  apply (phrase_reported_iff_substring "Some STUFFY nose." "stuff").
  simpl. auto.
Defined.

(** X2: the report gets at most six style advisories, at most one of them
    about its length, so style never costs more than 30 points. *)
Theorem style_penalty_at_most_30 (student_analysis : StudentAnalysis)
    (expert_findings : list string) :
  (length (clarity_and_style
             (generate_feedback student_analysis expert_findings)) <= 6)%nat
  ∧ (length (length_advisories
               (PyStr.split_len (report_text student_analysis))) <= 1)%nat
  ∧ raw_score (categorize student_analysis expert_findings) >=
      100
      - 15 * Z.of_nat (size (expert_positives expert_findings
                             ∖ student_positives (fallback_findings student_analysis)))
      - 5 * Z.of_nat (size (expert_negatives expert_findings
                            ∖ student_negatives (fallback_findings student_analysis)))
      - 20 * Z.of_nat (size (student_positives (fallback_findings student_analysis)
                             ∖ expert_positives expert_findings))
      - 25 * Z.of_nat (size (student_positives (fallback_findings student_analysis)
                             ∩ expert_negatives expert_findings))
      - 30.
Proof.
  pose proof (length_check_report_style (report_text student_analysis)) as H6.
  split; [|split].
  - unfold generate_feedback, assemble, categorize; simpl. unfold len in H6. lia.
  - unfold length_advisories, check_conciseness.
    destruct (_ <? 15); [simpl; lia|]. destruct (_ >? 100); simpl; lia.
  - rewrite raw_score_sets. lia.
Qed.

(** ** Further properties of the reconciliation engine *)

Lemma expert_positives_ext (ef ef' : list string) :
  (∀ x, x ∈ ef ↔ x ∈ ef') → expert_positives ef = expert_positives ef'.
Proof.
  intros H. apply set_eq. intros t. rewrite !elem_of_expert_positives, H.
  reflexivity.
Qed.

Lemma expert_negatives_ext (ef ef' : list string) :
  (∀ x, x ∈ ef ↔ x ∈ ef') → expert_negatives ef = expert_negatives ef'.
Proof.
  intros H. apply set_eq. intros t. rewrite !elem_of_expert_negatives.
  split; intros (f & Hin & Hrest); exists f; (split; [apply H; exact Hin|exact Hrest]).
Qed.

Lemma student_positives_ext (fs fs' : list RawFinding) :
  (∀ r, r ∈ fs ↔ r ∈ fs') → student_positives fs = student_positives fs'.
Proof.
  intros H. apply set_eq. intros t. rewrite !elem_of_student_positives.
  split; intros (r & Hin & Hrest); exists r; (split; [apply H; exact Hin|exact Hrest]).
Qed.

Lemma student_negatives_ext (fs fs' : list RawFinding) :
  (∀ r, r ∈ fs ↔ r ∈ fs') → student_negatives fs = student_negatives fs'.
Proof.
  intros H. apply set_eq. intros t. rewrite !elem_of_student_negatives.
  split; intros (r & Hin & Hrest); exists r; (split; [apply H; exact Hin|exact Hrest]).
Qed.

(** X3: the feedback does not depend on the order of the gold-standard list or
    of the learner's findings, nor on how often an entry is repeated: two
    inputs with the same entries get the same score and the same lists up to
    order. *)
Theorem feedback_ignores_order_and_repeats
    (findings findings' : list RawFinding) (report : string)
    (expert_findings expert_findings' : list string) :
  (∀ x, x ∈ expert_findings ↔ x ∈ expert_findings') →
  (∀ r, r ∈ findings ↔ r ∈ findings') →
  overall_score
    (generate_feedback {| fallback_findings := findings; report_text := report |}
       expert_findings) =
  overall_score
    (generate_feedback {| fallback_findings := findings'; report_text := report |}
       expert_findings')
  ∧ correct_observations
      (generate_feedback {| fallback_findings := findings; report_text := report |}
         expert_findings)
    ≡ₚ correct_observations
      (generate_feedback {| fallback_findings := findings'; report_text := report |}
         expert_findings')
  ∧ missed_findings
      (generate_feedback {| fallback_findings := findings; report_text := report |}
         expert_findings)
    ≡ₚ missed_findings
      (generate_feedback {| fallback_findings := findings'; report_text := report |}
         expert_findings')
  ∧ misinterpretations
      (generate_feedback {| fallback_findings := findings; report_text := report |}
         expert_findings)
    ≡ₚ misinterpretations
      (generate_feedback {| fallback_findings := findings'; report_text := report |}
         expert_findings').
Proof.
  intros He Hf.
  unfold generate_feedback, assemble, categorize, raw_score; simpl.
  rewrite (expert_positives_ext _ _ He), (expert_negatives_ext _ _ He),
    (student_positives_ext _ _ Hf), (student_negatives_ext _ _ Hf).
  repeat split; reflexivity.
Qed.

Lemma feedback_ignores_order_and_repeats_witness :
  overall_score
    (generate_feedback
       {| fallback_findings := overlap_findings ++ overlap_findings;
          report_text := clean_report |}
       ["-effusion"; "pneumonia"; "pneumonia"]) =
  overall_score
    (generate_feedback
       {| fallback_findings := overlap_findings; report_text := clean_report |}
       ["pneumonia"; "-effusion"]).
Proof.
  apply (feedback_ignores_order_and_repeats
           (overlap_findings ++ overlap_findings) overlap_findings clean_report
           ["-effusion"; "pneumonia"; "pneumonia"] ["pneumonia"; "-effusion"]).
  - intros x. set_solver.
  - intros r. set_solver.
Defined.

Lemma expert_negatives_unmarked (ef : list string) :
  (∀ f, f ∈ ef → PyStr.startswith_dash f = false) → expert_negatives ef = ∅.
Proof.
  intros H. apply set_eq. intros t. rewrite elem_of_expert_negatives. split.
  - intros (f & Hin & Hd & _). rewrite (H f Hin) in Hd. discriminate Hd.
  - intros Hx. apply elem_of_empty in Hx. destruct Hx.
Qed.

Lemma expert_positives_unmarked (ef : list string) :
  (∀ f, f ∈ ef → PyStr.startswith_dash f = false) →
  expert_positives ef = list_to_set ef.
Proof.
  intros H. apply set_eq. intros t.
  rewrite elem_of_expert_positives, elem_of_list_to_set. specialize (H t). tauto.
Qed.

(** X4: when no gold-standard string carries the marker (the lists the service
    builds from the case labels and the image finding), the negated gold set is
    empty: the learner's negated findings change nothing, no absence is ever
    credited or missed, no negation error is charged, and the score is 100
    less 15 per gold finding not asserted, 20 per asserted finding not in the
    gold list and 5 per style advisory. *)
Theorem unmarked_gold_ignores_negations (student_analysis : StudentAnalysis)
    (expert_findings : list string) :
  (∀ f, f ∈ expert_findings → PyStr.startswith_dash f = false) →
  correct_observations (generate_feedback student_analysis expert_findings) =
    elements (student_positives (fallback_findings student_analysis)
              ∩ list_to_set expert_findings)
  ∧ missed_findings (generate_feedback student_analysis expert_findings) =
    elements (list_to_set expert_findings
              ∖ student_positives (fallback_findings student_analysis))
  ∧ misinterpretations (generate_feedback student_analysis expert_findings) =
    elements (student_positives (fallback_findings student_analysis)
              ∖ list_to_set expert_findings)
  ∧ overall_score (generate_feedback student_analysis expert_findings) =
    Z.max 0
      (100
       - 15 * Z.of_nat (size ((list_to_set expert_findings : gset string)
                              ∖ student_positives (fallback_findings student_analysis)))
       - 20 * Z.of_nat (size (student_positives (fallback_findings student_analysis)
                              ∖ list_to_set expert_findings))
       - 5 * len (_check_report_style (report_text student_analysis))).
Proof.
  intros H.
  rewrite overall_score_eq, raw_score_sets.
  unfold generate_feedback, assemble, categorize; simpl.
  rewrite (expert_negatives_unmarked _ H), (expert_positives_unmarked _ H).
  set (sp := student_positives (fallback_findings student_analysis)).
  set (sn := student_negatives (fallback_findings student_analysis)).
  assert (H1 : sn ∩ ∅ = ∅) by set_solver.
  assert (H2 : (∅ : gset string) ∖ sn = ∅) by set_solver.
  assert (H3 : sp ∩ ∅ = ∅) by set_solver.
  rewrite H1, H2, H3, elements_empty, size_empty. simpl.
  rewrite !app_nil_r. repeat split. lia.
Qed.

Lemma unmarked_gold_ignores_negations_witness :
  overall_score (generate_feedback matching_sa ["pneumonia"; "visual_anomaly"]) =
  Z.max 0
    (100
     - 15 * Z.of_nat (size ((list_to_set ["pneumonia"; "visual_anomaly"] : gset string)
                            ∖ student_positives (fallback_findings matching_sa)))
     - 20 * Z.of_nat (size (student_positives (fallback_findings matching_sa)
                            ∖ list_to_set ["pneumonia"; "visual_anomaly"]))
     - 5 * len (_check_report_style (report_text matching_sa))).
Proof.
  apply (unmarked_gold_ignores_negations matching_sa ["pneumonia"; "visual_anomaly"]).
  intros f Hf. apply list_elem_of_In in Hf.
  destruct Hf as [<-|[<-|[]]]; reflexivity.
Defined.

Lemma student_positives_cons (r : RawFinding) (fs : list RawFinding) :
  negated r = false →
  student_positives (r :: fs) = {[type r]} ∪ student_positives fs
  ∧ student_negatives (r :: fs) = student_negatives fs.
Proof.
  intros Hn. unfold student_positives, student_negatives; simpl.
  rewrite Hn. simpl. split; reflexivity.
Qed.

(** X5: one more asserted finding that the gold standard neither asserts nor
    negates costs exactly 20 points, down to the floor of 0. *)
Theorem unsupported_assertion_costs_20 (r : RawFinding)
    (findings : list RawFinding) (report : string) (expert_findings : list string) :
  negated r = false →
  type r ∉ student_positives findings →
  type r ∉ expert_positives expert_findings →
  type r ∉ expert_negatives expert_findings →
  overall_score
    (generate_feedback {| fallback_findings := r :: findings; report_text := report |}
       expert_findings) =
  Z.max 0
    (overall_score
       (generate_feedback {| fallback_findings := findings; report_text := report |}
          expert_findings) - 20).
Proof.
  intros Hn Hsp Hep Hen.
  rewrite !overall_score_eq, !raw_score_sets; simpl.
  destruct (student_positives_cons r findings Hn) as [-> ->].
  set (sp := student_positives findings) in *.
  set (ep := expert_positives expert_findings) in *.
  set (en := expert_negatives expert_findings) in *.
  assert (H1 : ep ∖ ({[type r]} ∪ sp) = ep ∖ sp) by set_solver.
  assert (H2 : ({[type r]} ∪ sp) ∖ ep = {[type r]} ∪ (sp ∖ ep)) by set_solver.
  assert (H3 : ({[type r]} ∪ sp) ∩ en = sp ∩ en) by set_solver.
  rewrite H1, H2, H3.
  assert (H4 : size ({[type r]} ∪ sp ∖ ep) = S (size (sp ∖ ep))).
  { rewrite size_union by set_solver. rewrite size_singleton. reflexivity. }
  rewrite H4. lia.
Qed.

Lemma unsupported_assertion_costs_20_witness :
  overall_score
    (generate_feedback
       {| fallback_findings :=
            {| type := "edema"; text := "there is edema."; negated := false |}
              :: fallback_findings matching_sa;
          report_text := clean_report |}
       ["pneumonia"; "-effusion"]) =
  Z.max 0
    (overall_score
       (generate_feedback
          {| fallback_findings := fallback_findings matching_sa;
             report_text := clean_report |}
          ["pneumonia"; "-effusion"]) - 20).
Proof.
  apply (unsupported_assertion_costs_20
           {| type := "edema"; text := "there is edema."; negated := false |}
           (fallback_findings matching_sa) clean_report ["pneumonia"; "-effusion"]).
  - reflexivity.
  - unfold student_positives; simpl. set_solver.
  - unfold expert_positives; simpl. set_solver.
  - unfold expert_negatives; simpl. set_solver.
Defined.

(** X6: when the gold standard asserts and negates no common type, every
    negation error is also a plain misinterpretation: the type and its phrase
    are both listed, and the finding is charged 20 and 25 points. *)
Theorem negation_error_is_misinterpretation (student_analysis : StudentAnalysis)
    (expert_findings : list string) (x : string) :
  expert_positives expert_findings ## expert_negatives expert_findings →
  x ∈ cat_negation_errors (categorize student_analysis expert_findings) →
  x ∈ misinterpretations (generate_feedback student_analysis expert_findings)
  ∧ incorrectly_identified x
      ∈ misinterpretations (generate_feedback student_analysis expert_findings)
  ∧ (length (cat_negation_errors (categorize student_analysis expert_findings))
     <= length (cat_misinterpretations (categorize student_analysis expert_findings)))%nat
  ∧ raw_score (categorize student_analysis expert_findings) <=
      100 - 45 * len (cat_negation_errors (categorize student_analysis expert_findings)).
Proof.
  intros Hdisj Hx.
  assert (Hsub : student_positives (fallback_findings student_analysis)
                 ∩ expert_negatives expert_findings
                 ⊆ student_positives (fallback_findings student_analysis)
                   ∖ expert_positives expert_findings) by set_solver.
  assert (Hlen : (length (cat_negation_errors (categorize student_analysis expert_findings))
     <= length (cat_misinterpretations (categorize student_analysis expert_findings)))%nat).
  { unfold categorize; simpl. apply (subseteq_size _ _ Hsub). }
  assert (Hraw : raw_score (categorize student_analysis expert_findings) <=
      100 - 45 * len (cat_negation_errors (categorize student_analysis expert_findings))).
  { revert Hlen. generalize (categorize student_analysis expert_findings).
    intros c Hlen. unfold raw_score, len.
    pose proof (len_nonneg (cat_missed_findings c)).
    pose proof (len_nonneg (cat_missed_negations c)).
    pose proof (len_nonneg (cat_clarity_and_style_feedback c)).
    unfold len in *. lia. }
  split; [|split; [|split]].
  - unfold generate_feedback, assemble; simpl.
    apply elem_of_app. left. unfold categorize in *; simpl in *.
    rewrite elem_of_elements in *. set_solver.
  - unfold generate_feedback, assemble; simpl.
    apply elem_of_app. right. apply list_elem_of_In, in_map, list_elem_of_In.
    exact Hx.
  - exact Hlen.
  - exact Hraw.
Qed.

Lemma negation_error_is_misinterpretation_witness :
  "pneumothorax"
    ∈ misinterpretations (generate_feedback pneumothorax_sa ["-pneumothorax"])
  ∧ incorrectly_identified "pneumothorax"
      ∈ misinterpretations (generate_feedback pneumothorax_sa ["-pneumothorax"]).
Proof.
  destruct (negation_error_is_misinterpretation pneumothorax_sa
              ["-pneumothorax"] "pneumothorax") as (H1 & H2 & _).
  - unfold expert_positives, expert_negatives; simpl. set_solver.
  - unfold categorize; simpl. rewrite elem_of_elements.
    unfold student_positives, expert_negatives; simpl. set_solver.
  - split; assumption.
Defined.


(** ** The rule-based analyzer *)

Section RuleBased.

Import RuleBasedAnalyzer.

Lemma scan_keywords_eq (t s : string) (neg : bool) (kws : list string)
    (acc : list RawFinding) :
  scan_keywords t s neg kws acc =
  if existsb (fun k => PyStr.contains k s) kws
  then acc ++ [make_finding t s neg] else acc.
Proof.
  induction kws as [|k kws IH]; simpl; [reflexivity|].
  destruct (PyStr.contains k s); simpl; [reflexivity | exact IH].
Qed.

Lemma fold_scan_keywords (s : string) (neg : bool)
    (pats : list (string * list string)) (acc : list RawFinding) :
  fold_left (fun acc entry => scan_keywords (fst entry) s neg (snd entry) acc)
    pats acc =
  acc ++ List.map (fun entry => make_finding (fst entry) s neg)
           (List.filter
              (fun entry => existsb (fun k => PyStr.contains k s) (snd entry))
              pats).
Proof.
  revert acc. induction pats as [|e pats IH]; intros acc; simpl.
  - symmetry. apply app_nil_r.
  - rewrite IH, scan_keywords_eq.
    destruct (existsb _ (snd e)); simpl; [|reflexivity].
    rewrite <- app_assoc. reflexivity.
Qed.

Lemma scan_sentence_eq (acc : list RawFinding) (s : string) :
  scan_sentence acc s = acc ++ sentence_findings s.
Proof. unfold scan_sentence, sentence_findings. apply fold_scan_keywords. Qed.

Lemma fold_scan_sentence (sentences : list string) (acc : list RawFinding) :
  fold_left scan_sentence sentences acc =
  acc ++ flat_map sentence_findings sentences.
Proof.
  revert acc. induction sentences as [|s ss IH]; intros acc;
    cbn [fold_left flat_map].
  - symmetry. apply app_nil_r.
  - rewrite IH, scan_sentence_eq, app_assoc. reflexivity.
Qed.

Lemma in_collect (sentences : list string) (r : RawFinding) :
  In r (collect sentences) ↔
  ∃ s kws, In s sentences ∧ In (type r, kws) patterns
           ∧ existsb (fun k => PyStr.contains k s) kws = true
           ∧ text r = PyText.strip s
           ∧ negated r = is_sentence_negated s.
Proof.
  unfold collect. rewrite fold_scan_sentence, app_nil_l, in_flat_map.
  unfold sentence_findings. split.
  - intros (s & Hs & Hr).
    apply in_map_iff in Hr as ([t kws] & <- & He).
    apply filter_In in He as [He Hk].
    exists s, kws. auto.
  - intros (s & kws & Hs & He & Hk & Ht & Hn). exists s. split; [exact Hs|].
    apply in_map_iff. exists (type r, kws). split.
    + destruct r as [t x n]. unfold make_finding. cbn in *. subst. reflexivity.
    + apply filter_In. auto.
Qed.

(** Stripping a sentence does not change which terms occur in it, for terms
    that neither begin nor end with white space. *)
Lemma prefix_cons_same (c : ascii) (p s : string) :
  String.prefix (String c p) (String c s) = String.prefix p s.
Proof. cbn [String.prefix]. destruct (ascii_dec c c); [reflexivity|congruence]. Qed.

Lemma prefix_cons_diff (a c : ascii) (p s : string) :
  a ≠ c → String.prefix (String a p) (String c s) = false.
Proof. intros H. cbn [String.prefix]. destruct (ascii_dec a c); [congruence|reflexivity]. Qed.

Lemma prefix_rstrip (p s : string) :
  ends_nonspace p = true →
  String.prefix p (PyText.rstrip s) = String.prefix p s.
Proof.
  revert p. induction s as [|c s IH]; intros p Hp; [reflexivity|].
  destruct p as [|a p]; [discriminate Hp|].
  cbn [PyText.rstrip].
  destruct (ascii_dec a c) as [->|Hne].
  - rewrite prefix_cons_same.
    destruct p as [|b p].
    + change (negb (PyStr.isspace c) = true) in Hp.
      apply negb_true_iff in Hp. rewrite Hp.
      destruct (PyText.rstrip s); rewrite prefix_cons_same;
        destruct s; reflexivity.
    + assert (Hp' : ends_nonspace (String b p) = true) by exact Hp.
      rewrite <- (IH _ Hp').
      destruct (PyText.rstrip s) as [|d r] eqn:Er.
      * destruct (PyStr.isspace c); [reflexivity|].
        rewrite prefix_cons_same. reflexivity.
      * rewrite prefix_cons_same. reflexivity.
  - rewrite (prefix_cons_diff a c p s Hne).
    destruct (PyText.rstrip s); [destruct (PyStr.isspace c)|];
      [reflexivity | apply prefix_cons_diff; exact Hne
       | apply prefix_cons_diff; exact Hne].
Qed.

Lemma contains_rstrip (p s : string) :
  ends_nonspace p = true →
  PyStr.contains p (PyText.rstrip s) = PyStr.contains p s.
Proof.
  intros Hp. induction s as [|c s IH]; [reflexivity|].
  cbn [PyStr.contains]. rewrite <- IH, <- (prefix_rstrip p (String c s) Hp).
  cbn [PyText.rstrip].
  destruct (PyText.rstrip s) as [|d r] eqn:Er.
  - destruct (PyStr.isspace c); cbn [PyStr.contains]; [|reflexivity].
    destruct p; [discriminate Hp|]. reflexivity.
  - reflexivity.
Qed.

Lemma contains_lstrip (p s : string) :
  starts_nonspace p = true →
  PyStr.contains p (PyText.lstrip s) = PyStr.contains p s.
Proof.
  intros Hp. induction s as [|c s IH]; [reflexivity|].
  cbn [PyText.lstrip]. destruct (PyStr.isspace c) eqn:Ec; [|reflexivity].
  rewrite IH. cbn [PyStr.contains].
  destruct p as [|a p]; [discriminate Hp|].
  cbn [String.prefix]. destruct (ascii_dec a c) as [->|]; [|reflexivity].
  cbn in Hp. rewrite Ec in Hp. discriminate Hp.
Qed.

Lemma contains_strip (p s : string) :
  starts_nonspace p = true → ends_nonspace p = true →
  PyStr.contains p (PyText.strip s) = PyStr.contains p s.
Proof.
  intros Hs He. unfold PyText.strip.
  rewrite contains_rstrip, contains_lstrip by assumption. reflexivity.
Qed.

Lemma existsb_agree {A : Type} (f g : A → bool) (l : list A) :
  (∀ x, In x l → f x = g x) → existsb f l = existsb g l.
Proof.
  induction l as [|x l IH]; intros H; [reflexivity|]. cbn.
  rewrite (H x (or_introl eq_refl)), IH; [reflexivity|].
  intros y Hy. apply H. right. exact Hy.
Qed.

Lemma is_sentence_negated_strip (s : string) :
  is_sentence_negated (PyText.strip s) = is_sentence_negated s.
Proof.
  unfold is_sentence_negated. apply existsb_agree. intros neg Hneg.
  assert (Hall : forallb (fun p => starts_nonspace p && ends_nonspace p)
                   negation_terms = true) by (vm_compute; reflexivity).
  rewrite forallb_forall in Hall. specialize (Hall neg Hneg).
  apply andb_true_iff in Hall as [Hs He]. apply contains_strip; assumption.
Qed.

(** Two collected findings with the same text and type are the same
    finding: the key of the duplicate check determines the negation flag. *)
Lemma collect_key_inj (sentences : list string) (r r' : RawFinding) :
  In r (collect sentences) → In r' (collect sentences) →
  finding_key r = finding_key r' → r = r'.
Proof.
  intros Hr Hr' Hk.
  apply in_collect in Hr as (s & _ & _ & _ & _ & Ht & Hn).
  apply in_collect in Hr' as (s' & _ & _ & _ & _ & Ht' & Hn').
  unfold finding_key in Hk. injection Hk as Hx Hty.
  destruct r as [t x n], r' as [t' x' n']; cbn [type text negated] in *.
  assert (Hneg : n = n').
  { rewrite Hn, Hn', <- (is_sentence_negated_strip s),
      <- (is_sentence_negated_strip s'), <- Ht, <- Ht', Hx. reflexivity. }
  rewrite Hx, Hty, Hneg. reflexivity.
Qed.

Lemma dedupe_invariant (l u : list RawFinding) (seen : gset (string * string)) :
  NoDup (List.map finding_key u) →
  (∀ k, k ∈ seen ↔ In k (List.map finding_key u)) →
  NoDup (List.map finding_key (fold_left dedupe_step l (u, seen)).1)
  ∧ (∀ r, In r (fold_left dedupe_step l (u, seen)).1 → In r u ∨ In r l)
  ∧ (∀ r, In r u ∨ In r l →
          In (finding_key r)
             (List.map finding_key (fold_left dedupe_step l (u, seen)).1)).
Proof.
  revert u seen. induction l as [|x l IH]; intros u seen Hnd Hseen;
    cbn [fold_left].
  - split; [exact Hnd|]. split; [auto|].
    intros r [Hr|[]]. apply in_map. exact Hr.
  - unfold dedupe_step at 2 4 6. cbn [fst snd].
    case_bool_decide as Hin.
    + destruct (IH u seen Hnd Hseen) as (H1 & H2 & H3).
      split; [exact H1|]. split.
      * intros r Hr. destruct (H2 r Hr) as [?|?]; [left|right; right]; assumption.
      * intros r [Hr|[<-|Hr]]; [apply H3; auto| |apply H3; auto].
        apply Hseen in Hin. apply in_map_iff in Hin as (r' & Hk & Hr').
        rewrite <- Hk. apply H3. left. exact Hr'.
    + assert (Hnd' : NoDup (List.map finding_key (u ++ [x]))).
      { rewrite map_app. apply NoDup_app. split; [exact Hnd|]. split.
        - intros k Hk Hk'. apply list_elem_of_In in Hk.
          apply list_elem_of_singleton in Hk'. subst k.
          apply Hin, Hseen, Hk.
        - apply NoDup_singleton. }
      assert (Hseen' : ∀ k, k ∈ {[finding_key x]} ∪ seen ↔
                            In k (List.map finding_key (u ++ [x]))).
      { intros k. rewrite map_app, in_app_iff, elem_of_union,
          elem_of_singleton, Hseen. cbn. intuition congruence. }
      destruct (IH _ _ Hnd' Hseen') as (H1 & H2 & H3).
      split; [exact H1|]. split.
      * intros r Hr. destruct (H2 r Hr) as [Hu|Hl]; [|right; right; exact Hl].
        apply in_app_iff in Hu as [Hu|[<-|[]]]; [left; exact Hu|right; left; reflexivity].
      * intros r [Hr|[<-|Hr]]; apply H3;
          [left; apply in_app_iff; left; exact Hr
          |left; apply in_app_iff; right; left; reflexivity
          |right; exact Hr].
Qed.

Lemma unique_spec (l : list RawFinding) :
  NoDup (List.map finding_key (unique l))
  ∧ (∀ r, In r (unique l) → In r l)
  ∧ (∀ r, In r l → In (finding_key r) (List.map finding_key (unique l))).
Proof.
  unfold unique.
  destruct (dedupe_invariant l [] ∅) as (H1 & H2 & H3).
  - apply NoDup_nil_2.
  - intros k. cbn. split; [intros H; apply elem_of_empty in H; exact H | tauto].
  - split; [exact H1|]. split.
    + intros r Hr. destruct (H2 r Hr) as [[]|Hl]. exact Hl.
    + intros r Hr. apply H3. right. exact Hr.
Qed.

Lemma in_unique_collect (sentences : list string) (r : RawFinding) :
  In r (unique (collect sentences)) ↔ In r (collect sentences).
Proof.
  destruct (unique_spec (collect sentences)) as (_ & H2 & H3). split.
  - apply H2.
  - intros Hr. specialize (H3 r Hr).
    apply in_map_iff in H3 as (r' & Hk & Hr').
    rewrite <- (collect_key_inj sentences r' r); auto.
Qed.

End RuleBased.

(** X7: with a loaded model, the analyzer reports a finding exactly when some
    sentence of the lower-cased report contains a keyword of the finding's
    type; the finding carries the stripped sentence, and it is negated exactly
    when a negation term occurs in that sentence as a substring.  Removing
    duplicates never drops a finding that differs from the kept one. *)
Theorem rule_based_findings_iff (sents : string → list string)
    (report_text : string) (r : RawFinding) :
  r ∈ RuleBasedAnalyzer.findings_of
        (RuleBasedAnalyzer.analyze (Some sents) report_text) ↔
  ∃ s kws k,
    s ∈ sents (PyStr.lower report_text)
    ∧ (type r, kws) ∈ RuleBasedAnalyzer.patterns
    ∧ k ∈ kws ∧ PyStr.contains k s = true
    ∧ text r = PyText.strip s
    ∧ negated r = RuleBasedAnalyzer.is_sentence_negated s.
Proof.
  cbn [RuleBasedAnalyzer.analyze RuleBasedAnalyzer.findings_of].
  rewrite list_elem_of_In, in_unique_collect, in_collect. split.
  - intros (s & kws & Hs & He & Hk & Ht & Hn).
    apply existsb_exists in Hk as (k & Hk & Hc).
    exists s, kws, k. rewrite !list_elem_of_In. auto 10.
  - intros (s & kws & k & Hs & He & Hk & Hc & Ht & Hn).
    rewrite !list_elem_of_In in *.
    exists s, kws. repeat split; try assumption.
    apply existsb_exists. exists k. auto.
Qed.

Lemma length_sentence_findings (s : string) :
  (length (sentence_findings s) <= 7)%nat.
Proof.
  unfold sentence_findings. rewrite length_map.
  etransitivity; [apply List.filter_length_le|]. reflexivity.
Qed.

Lemma length_flat_map_sentence_findings (sentences : list string) :
  (length (flat_map sentence_findings sentences) <= 7 * length sentences)%nat.
Proof.
  induction sentences as [|s ss IH]; cbn [flat_map length]; [lia|].
  rewrite length_app. pose proof (length_sentence_findings s). lia.
Qed.

Lemma length_dedupe (l u : list RawFinding) (seen : gset (string * string)) :
  (length (fold_left RuleBasedAnalyzer.dedupe_step l (u, seen)).1
   <= length u + length l)%nat.
Proof.
  revert u seen. induction l as [|x l IH]; intros u seen; cbn [fold_left length].
  - cbn. lia.
  - unfold RuleBasedAnalyzer.dedupe_step at 2. cbn [fst snd].
    case_bool_decide.
    + specialize (IH u seen). lia.
    + specialize (IH (u ++ [x]) ({[RuleBasedAnalyzer.finding_key x]} ∪ seen)).
      rewrite length_app in IH. cbn in IH. lia.
Qed.

(** X8: the findings the analyzer returns never repeat a pair of sentence
    text and type, and there are at most seven of them per sentence (one per
    pattern), whether or not the model is loaded. *)
Theorem rule_based_findings_unique (nlp : option (string → list string))
    (report_text : string) :
  NoDup (List.map RuleBasedAnalyzer.finding_key
           (RuleBasedAnalyzer.findings_of
              (RuleBasedAnalyzer.analyze nlp report_text)))
  ∧ (length (RuleBasedAnalyzer.findings_of
               (RuleBasedAnalyzer.analyze nlp report_text))
     <= 7 * length (match nlp with
                    | Some sents => sents (PyStr.lower report_text)
                    | None => []
                    end))%nat.
Proof.
  destruct nlp as [sents|];
    cbn [RuleBasedAnalyzer.analyze RuleBasedAnalyzer.findings_of].
  - split.
    + apply (unique_spec (RuleBasedAnalyzer.collect (sents (PyStr.lower report_text)))).
    + unfold RuleBasedAnalyzer.unique.
      etransitivity; [apply length_dedupe|]. cbn [length Nat.add].
      unfold RuleBasedAnalyzer.collect. rewrite fold_scan_sentence, app_nil_l.
      apply length_flat_map_sentence_findings.
  - split; [apply NoDup_nil_2 | cbn; lia].
Qed.

(** X9: when the spaCy model could not be loaded the analyzer returns no
    finding, so the learner is told that every gold finding was missed and is
    charged 15 per asserted and 5 per negated gold finding, whatever the
    report says. *)
Theorem unavailable_model_misses_everything (report : string)
    (expert_findings : list string) :
  RuleBasedAnalyzer.findings_of (RuleBasedAnalyzer.analyze None report) = []
  ∧ correct_observations
      (generate_feedback
         {| fallback_findings :=
              RuleBasedAnalyzer.findings_of (RuleBasedAnalyzer.analyze None report);
            report_text := report |} expert_findings) = []
  ∧ missed_findings
      (generate_feedback
         {| fallback_findings :=
              RuleBasedAnalyzer.findings_of (RuleBasedAnalyzer.analyze None report);
            report_text := report |} expert_findings) =
    elements (expert_positives expert_findings)
    ++ List.map missed_absence_of (elements (expert_negatives expert_findings))
  ∧ overall_score
      (generate_feedback
         {| fallback_findings :=
              RuleBasedAnalyzer.findings_of (RuleBasedAnalyzer.analyze None report);
            report_text := report |} expert_findings) =
    Z.max 0 (100 - 15 * Z.of_nat (size (expert_positives expert_findings))
                 - 5 * Z.of_nat (size (expert_negatives expert_findings))
                 - 5 * len (_check_report_style report)).
Proof.
  cbn [RuleBasedAnalyzer.analyze RuleBasedAnalyzer.findings_of].
  rewrite overall_score_eq, raw_score_sets.
  unfold generate_feedback, assemble, categorize.
  cbn [fallback_findings report_text correct_observations missed_findings
       cat_correct_observations cat_correct_negations cat_missed_findings
       cat_missed_negations].
  change (student_positives []) with (∅ : gset string).
  change (student_negatives []) with (∅ : gset string).
  set (ep := expert_positives expert_findings).
  set (en := expert_negatives expert_findings).
  assert (H1 : (∅ : gset string) ∩ ep = ∅) by set_solver.
  assert (H2 : (∅ : gset string) ∩ en = ∅) by set_solver.
  assert (H3 : ep ∖ ∅ = ep) by set_solver.
  assert (H4 : en ∖ ∅ = en) by set_solver.
  assert (H5 : (∅ : gset string) ∖ ep = ∅) by set_solver.
  rewrite H1, H2, H3, H4, H5, elements_empty, size_empty.
  repeat split. lia.
Qed.

Lemma rule_based_types (nlp : option (string → list string))
    (report_text : string) (r : RawFinding) :
  r ∈ RuleBasedAnalyzer.findings_of (RuleBasedAnalyzer.analyze nlp report_text) →
  In (type r) (List.map fst RuleBasedAnalyzer.patterns).
Proof.
  destruct nlp as [sents|].
  - cbn [RuleBasedAnalyzer.analyze RuleBasedAnalyzer.findings_of].
    rewrite list_elem_of_In, in_unique_collect, in_collect.
    intros (s & kws & _ & He & _). apply (in_map fst) in He. exact He.
  - cbn. intros Hr. apply elem_of_nil in Hr. destruct Hr.
Qed.

Lemma size_pos_elem_of (X : gset string) (x : string) :
  x ∈ X → (1 <= size X)%nat.
Proof.
  intros Hx. destruct (size X) eqn:E; [|lia].
  apply size_empty_inv in E. apply E in Hx. apply elem_of_empty in Hx.
  destruct Hx.
Qed.

Lemma missed_when_type_unknown (nlp : option (string → list string))
    (report : string) (expert_findings : list string) (x : string) :
  x ∈ expert_findings →
  PyStr.startswith_dash x = false →
  ¬ In x (List.map fst RuleBasedAnalyzer.patterns) →
  x ∈ missed_findings
        (generate_feedback
           {| fallback_findings :=
                RuleBasedAnalyzer.findings_of (RuleBasedAnalyzer.analyze nlp report);
              report_text := report |} expert_findings)
  ∧ overall_score
      (generate_feedback
         {| fallback_findings :=
              RuleBasedAnalyzer.findings_of (RuleBasedAnalyzer.analyze nlp report);
            report_text := report |} expert_findings) <= 85.
Proof.
  intros Hin Hd Hkey.
  set (fs := RuleBasedAnalyzer.findings_of (RuleBasedAnalyzer.analyze nlp report)).
  assert (Hx : x ∈ expert_positives expert_findings ∖ student_positives fs).
  { apply elem_of_difference. split.
    - apply elem_of_expert_positives. auto.
    - intros Hsp. apply elem_of_student_positives in Hsp as (r & Hr & Ht & _).
      apply Hkey. rewrite <- Ht. apply (rule_based_types nlp report r Hr). }
  split.
  - unfold generate_feedback, assemble, categorize.
    cbn [missed_findings cat_missed_findings fallback_findings].
    apply elem_of_app. left. apply elem_of_elements. exact Hx.
  - rewrite overall_score_eq, raw_score_sets. cbn [fallback_findings report_text].
    pose proof (size_pos_elem_of _ _ Hx).
    pose proof (len_nonneg (_check_report_style report)). lia.
Qed.

(** X10: a gold finding whose name is not one of the analyzer's seven pattern
    names (the image finding [visual_anomaly], or a case label such as
    [consolidation] or [mass]) can never be found by the learner: it is always
    listed as missed and the score is at most 85. *)
Theorem unknown_gold_type_always_missed (nlp : option (string → list string))
    (report : string) (expert_findings : list string) (x : string) :
  x ∈ expert_findings →
  PyStr.startswith_dash x = false →
  ¬ In x (List.map fst RuleBasedAnalyzer.patterns) →
  x ∈ missed_findings
        (generate_feedback
           {| fallback_findings :=
                RuleBasedAnalyzer.findings_of (RuleBasedAnalyzer.analyze nlp report);
              report_text := report |} expert_findings)
  ∧ overall_score
      (generate_feedback
         {| fallback_findings :=
              RuleBasedAnalyzer.findings_of (RuleBasedAnalyzer.analyze nlp report);
            report_text := report |} expert_findings) <= 85.
Proof. apply missed_when_type_unknown. Qed.

Lemma unknown_gold_type_always_missed_witness :
  "visual_anomaly"
    ∈ missed_findings
        (generate_feedback
           {| fallback_findings :=
                RuleBasedAnalyzer.findings_of
                  (RuleBasedAnalyzer.analyze (Some (PyText.split_on "."%char))
                     clean_report);
              report_text := clean_report |}
           (gold_standard_findings {["pneumonia"]} (list_to_set (analyze_image true)))).
Proof.
  apply (unknown_gold_type_always_missed (Some (PyText.split_on "."%char))
           clean_report
           (gold_standard_findings {["pneumonia"]} (list_to_set (analyze_image true)))
           "visual_anomaly").
  - apply elem_of_gold_standard_findings. right. cbn. set_solver.
  - reflexivity.
  - cbn. intros H. repeat (destruct H as [H|H]; [discriminate H|]). exact H.
Defined.


(** ** The embedding-based analyzers *)

Lemma fold_check_condition (text_lower : string)
    (entries : list (string * list string))
    (acc : list RadBERTAnalyzer.Finding) :
  fold_left (RadBERTAnalyzer.check_condition text_lower) entries acc =
  acc ++ List.map
           (fun entry => {| RadBERTAnalyzer.type := fst entry;
                            RadBERTAnalyzer.detected := true |})
           (List.filter
              (fun entry =>
                 existsb (fun term => PyStr.contains term text_lower) (snd entry))
              entries).
Proof.
  revert acc. induction entries as [|e entries IH]; intros acc;
    cbn [fold_left List.filter].
  - symmetry. apply app_nil_r.
  - rewrite IH. unfold RadBERTAnalyzer.check_condition.
    destruct (existsb _ (snd e)); cbn [List.map]; [|reflexivity].
    rewrite <- app_assoc. reflexivity.
Qed.

Lemma NoDup_map_filter {A B : Type} (f : A → B) (p : A → bool) (l : list A) :
  NoDup (List.map f l) → NoDup (List.map f (List.filter p l)).
Proof.
  induction l as [|x l IH]; cbn [List.map List.filter]; intros Hnd.
  - exact Hnd.
  - apply NoDup_cons in Hnd as [Hx Hnd]. destruct (p x); cbn [List.map].
    + apply NoDup_cons. split; [|apply IH; exact Hnd].
      intros Hin. apply Hx. apply list_elem_of_In in Hin.
      apply in_map_iff in Hin as (y & Hy & Hin).
      apply filter_In in Hin as [Hin _].
      apply list_elem_of_In, in_map_iff. exists y. auto.
    + apply IH. exact Hnd.
Qed.

(** X11: [_extract_findings] reports a condition exactly when one of its terms
    occurs in the lower-cased text, always with [detected] set, each condition
    at most once. *)
Theorem radbert_findings_iff (text : string) (f : RadBERTAnalyzer.Finding) :
  (f ∈ RadBERTAnalyzer._extract_findings text ↔
     RadBERTAnalyzer.detected f = true
     ∧ ∃ terms term,
         (RadBERTAnalyzer.type f, terms) ∈ RadBERTAnalyzer.key_terms
         ∧ term ∈ terms
         ∧ PyStr.contains term (PyStr.lower text) = true)
  ∧ NoDup (List.map RadBERTAnalyzer.type (RadBERTAnalyzer._extract_findings text))
  ∧ (length (RadBERTAnalyzer._extract_findings text) <= 7)%nat.
Proof.
  unfold RadBERTAnalyzer._extract_findings.
  rewrite fold_check_condition, app_nil_l.
  split; [|split].
  - rewrite list_elem_of_In, in_map_iff. split.
    + intros ([c terms] & <- & He). apply filter_In in He as [He Hk].
      apply existsb_exists in Hk as (term & Hterm & Hc).
      split; [reflexivity|]. exists terms, term.
      rewrite !list_elem_of_In. auto.
    + intros (Hd & terms & term & He & Hterm & Hc).
      rewrite !list_elem_of_In in *.
      exists (RadBERTAnalyzer.type f, terms). split.
      * destruct f as [t d]. cbn in *. subst d. reflexivity.
      * apply filter_In. split; [exact He|].
        apply existsb_exists. exists term. auto.
  - rewrite map_map. cbn [RadBERTAnalyzer.type].
    apply (NoDup_map_filter fst). unfold RadBERTAnalyzer.key_terms.
    cbn [List.map fst]. repeat (apply NoDup_cons; split; [set_solver|]).
    apply NoDup_nil_2.
  - rewrite length_map. etransitivity; [apply List.filter_length_le|].
    reflexivity.
Qed.

Lemma lookup_category_found (label : string)
    (cats : list (string * list string)) :
  CheXBertExtractor.lookup_category label cats ≠ "other" →
  ∃ cat labels, In (cat, labels) cats ∧ In label labels.
Proof.
  induction cats as [|[cat labels] cats IH]; cbn [CheXBertExtractor.lookup_category].
  - congruence.
  - destruct (existsb (String.eqb label) labels) eqn:E.
    + intros _. apply existsb_exists in E as (l & Hl & Heq).
      apply String.eqb_eq in Heq. subst l. exists cat, labels. split; [left|]; auto.
    + intros H. destruct (IH H) as (c & ls & Hin & Hl).
      exists c, ls. split; [right|]; auto.
Qed.

(** X12: [_get_category] answers [other] exactly for the strings that are not
    among the fourteen labels, and gives every label the category it is
    listed under (no label is listed twice). *)
Theorem chexbert_category_total (label : string) :
  (In label CheXBertExtractor.LABELS ↔
   CheXBertExtractor._get_category label ≠ "other")
  ∧ (∀ cat labels,
       In (cat, labels) CheXBertExtractor.categories → In label labels →
       CheXBertExtractor._get_category label = cat).
Proof.
  split; [split|].
  - intros Hin. cbn in Hin.
    repeat (destruct Hin as [<-|Hin]; [vm_compute; discriminate|]).
    destruct Hin.
  - intros H. apply lookup_category_found in H as (cat & labels & Hc & Hl).
    cbn in Hc.
    repeat (destruct Hc as [Hc|Hc];
            [injection Hc as <- <-; cbn in Hl;
             repeat (destruct Hl as [<-|Hl]; [cbn; tauto|]); destruct Hl|]).
    destruct Hc.
  - intros cat labels Hc Hl. cbn in Hc.
    repeat (destruct Hc as [Hc|Hc];
            [injection Hc as <- <-; cbn in Hl;
             repeat (destruct Hl as [<-|Hl]; [vm_compute; reflexivity|]);
             destruct Hl|]).
    destruct Hc.
Qed.

(** ** Splitting at a separator *)

Lemma split_on_cons (sep : ascii) (s : string) :
  ∃ piece rest, PyText.split_on sep s = piece :: rest.
Proof.
  induction s as [|c s (piece & rest & IH)]; cbn [PyText.split_on].
  - eauto.
  - destruct (Ascii.eqb c sep); [eauto|]. rewrite IH. eauto.
Qed.

Lemma hd_split_on_no_sep (sep : ascii) (s : string) :
  has_char sep (List.hd EmptyString (PyText.split_on sep s)) = false.
Proof.
  induction s as [|c s IH]; cbn [PyText.split_on]; [reflexivity|].
  destruct (Ascii.eqb c sep) eqn:E; [reflexivity|].
  destruct (split_on_cons sep s) as (piece & rest & Hs).
  rewrite Hs in *. cbn [List.hd has_char] in *. rewrite E, IH. reflexivity.
Qed.

Lemma hd_split_on_app (sep : ascii) (a b : string) :
  has_char sep a = false →
  List.hd EmptyString (PyText.split_on sep (a +:+ String sep b)) = a.
Proof.
  induction a as [|c a IH]; intros Ha.
  - change (EmptyString +:+ String sep b) with (String sep b).
    cbn [PyText.split_on]. rewrite Ascii.eqb_refl. reflexivity.
  - cbn [has_char] in Ha. apply orb_false_iff in Ha as [Hc Ha].
    change (String c a +:+ String sep b) with (String c (a +:+ String sep b)).
    cbn [PyText.split_on]. rewrite Hc.
    destruct (split_on_cons sep (a +:+ String sep b)) as (piece & rest & Hs).
    specialize (IH Ha). rewrite Hs in *. cbn [List.hd] in *. rewrite IH.
    reflexivity.
Qed.

Lemma hd_split_on_id (sep : ascii) (a : string) :
  has_char sep a = false →
  List.hd EmptyString (PyText.split_on sep a) = a.
Proof.
  induction a as [|c a IH]; intros Ha; [reflexivity|].
  cbn [has_char] in Ha. apply orb_false_iff in Ha as [Hc Ha].
  cbn [PyText.split_on]. rewrite Hc.
  destruct (split_on_cons sep a) as (piece & rest & Hs).
  specialize (IH Ha). rewrite Hs in *. cbn [List.hd] in *. rewrite IH.
  reflexivity.
Qed.

Lemma hd_split_on_decompose (sep : ascii) (s : string) :
  s = List.hd EmptyString (PyText.split_on sep s)
  ∨ ∃ rest, s = List.hd EmptyString (PyText.split_on sep s) +:+ String sep rest.
Proof.
  induction s as [|c s IH]; cbn [PyText.split_on]; [left; reflexivity|].
  destruct (Ascii.eqb c sep) eqn:E.
  - apply Ascii.eqb_eq in E. subst c. right. exists s. reflexivity.
  - destruct (split_on_cons sep s) as (piece & rest & Hs).
    rewrite Hs in *. cbn [List.hd] in *.
    destruct IH as [IH|(r & IH)].
    + left. rewrite <- IH. reflexivity.
    + right. exists r. rewrite IH at 1. reflexivity.
Qed.

(** X13: the case id taken from a file name or from a request never contains
    a dot, taking it twice changes nothing, and a case id followed by a dot
    and any extension gives the case id back; the original string is the case
    id alone or the case id followed by a dot. *)
Theorem case_id_base_properties (s : string) :
  has_char "."%char (ApiService.case_id_base s) = false
  ∧ ApiService.case_id_base (ApiService.case_id_base s) = ApiService.case_id_base s
  ∧ (∀ ext, ApiService.case_id_base
              (ApiService.case_id_base s +:+ "." +:+ ext)
            = ApiService.case_id_base s)
  ∧ (s = ApiService.case_id_base s
     ∨ ∃ rest, s = ApiService.case_id_base s +:+ "." +:+ rest).
Proof.
  unfold ApiService.case_id_base.
  pose proof (hd_split_on_no_sep "."%char s) as Hno.
  split; [exact Hno|]. split; [apply hd_split_on_id; exact Hno|].
  split; [intros ext; apply (hd_split_on_app "."%char _ ext Hno)|].
  apply hd_split_on_decompose.
Qed.

(** ** The case library *)

(** X14: a row gets an empty label set exactly when one of the pieces of its
    [Finding Labels] cell, lower-cased and without underscores, reads
    [nofinding]; otherwise it keeps the normalised pieces, which are never
    none. *)
Theorem expert_text_labels_empty_iff (row : ApiService.Row) :
  (ApiService.expert_text_labels row = ∅ ↔
     ∃ piece, piece ∈ PyText.split_on "|"%char (ApiService.finding_labels row)
              ∧ ApiService.normalize_label piece = "nofinding")
  ∧ (ApiService.expert_text_labels row = ∅
     ∨ ApiService.expert_text_labels row =
         list_to_set (List.map ApiService.normalize_label
                        (PyText.split_on "|"%char (ApiService.finding_labels row)))).
Proof.
  unfold ApiService.expert_text_labels.
  set (pieces := PyText.split_on "|"%char (ApiService.finding_labels row)).
  assert (Hmem : "nofinding" ∈ (list_to_set (List.map ApiService.normalize_label pieces)
                                : gset string) ↔
                 ∃ piece, piece ∈ pieces
                          ∧ ApiService.normalize_label piece = "nofinding").
  { rewrite elem_of_list_to_set, list_elem_of_In, in_map_iff.
    split; intros (piece & H1 & H2); exists piece;
      rewrite list_elem_of_In in *; auto. }
  cbv zeta. case_bool_decide as Hin.
  - split; [|left; reflexivity]. split; [intros _; apply Hmem, Hin|reflexivity].
  - split; [|right; reflexivity]. split; [|intros H; destruct (Hin (proj2 Hmem H))].
    intros Hempty. exfalso.
    destruct (split_on_cons "|"%char (ApiService.finding_labels row))
      as (piece & rest & Hs).
    fold pieces in Hs. rewrite Hs in Hempty. cbn [List.map list_to_set] in Hempty.
    set_solver.
Qed.

Lemma no_finding_labels (row : ApiService.Row) :
  ApiService.finding_labels row = "No Finding" →
  ApiService.expert_text_labels row = {["no finding"]}.
Proof.
  intros H. unfold ApiService.expert_text_labels. rewrite H.
  vm_compute. reflexivity.
Qed.

Section Library.

Variables (rows : list ApiService.Row) (selected : list string).

Lemma fold_insert_lookup (l : list ApiService.Row)
    (m : gmap string ApiService.Case) (k : string) (c : ApiService.Case) :
  fold_left
    (fun library row =>
       <[ApiService.case_id_base (ApiService.image_index row)
         := ApiService.make_case row]> library) l m !! k = Some c →
  m !! k = Some c
  ∨ ∃ row, In row l ∧ c = ApiService.make_case row
           ∧ k = ApiService.case_id_base (ApiService.image_index row).
Proof.
  revert m. induction l as [|row l IH]; intros m; cbn [fold_left]; [auto|].
  intros H. apply IH in H as [H|(r & Hr & Hc & Hk)].
  - destruct (decide (ApiService.case_id_base (ApiService.image_index row) = k))
      as [Heq|Hne].
    + subst k. rewrite lookup_insert_eq in H. injection H as <-.
      right. exists row. split; [left; reflexivity|auto].
    + rewrite lookup_insert_ne in H by exact Hne. left. exact H.
  - right. exists r. split; [right; exact Hr|auto].
Qed.


Lemma build_case_library_lookup (k : string) (c : ApiService.Case) :
  ApiService.build_case_library rows selected !! k = Some c →
  ∃ row, In row rows
         ∧ ApiService.isin (ApiService.image_index row) selected = true
         ∧ c = ApiService.make_case row
         ∧ k = ApiService.case_id_base (ApiService.image_index row).
Proof.
  unfold ApiService.build_case_library. intros H.
  apply fold_insert_lookup in H as [H|(row & Hr & Hc & Hk)].
  - rewrite lookup_empty in H. discriminate H.
  - apply filter_In in Hr as [Hr Hs]. exists row. auto.
Qed.

End Library.

(** X15: every entry of the library built at start-up comes from a selected
    row of the data file; it is stored under its own case id, which has no
    dot, and its image path is the static image directory followed by the
    row's file name. *)
Theorem case_library_entries (rows : list ApiService.Row)
    (selected : list string) (k : string) (c : ApiService.Case) :
  ApiService.build_case_library rows selected !! k = Some c →
  ApiService.case_id c = k
  ∧ has_char "."%char k = false
  ∧ ∃ row, In row rows
           ∧ ApiService.isin (ApiService.image_index row) selected = true
           ∧ c = ApiService.make_case row
           ∧ ApiService.image_path c =
               "/static/images/" +:+ ApiService.image_index row.
Proof.
  intros H. apply build_case_library_lookup in H as (row & Hr & Hs & -> & ->).
  split; [reflexivity|]. split; [apply hd_split_on_no_sep|].
  exists row. auto.
Qed.

Lemma case_library_entries_witness :
  ApiService.case_id (ApiService.make_case
     {| ApiService.image_index := "00000061_015.png";
        ApiService.finding_labels := "Effusion|Pneumonia";
        ApiService.patient_age := "77"; ApiService.patient_gender := "M" |})
    = "00000061_015"
  ∧ has_char "."%char "00000061_015" = false.
Proof.
  destruct (case_library_entries sample_rows
              ["00000061_015.png"; "00000144_001.png"] "00000061_015"
              (ApiService.make_case
                 {| ApiService.image_index := "00000061_015.png";
                    ApiService.finding_labels := "Effusion|Pneumonia";
                    ApiService.patient_age := "77";
                    ApiService.patient_gender := "M" |}))
    as (H1 & H2 & _).
  - vm_compute. reflexivity.
  - split; assumption.
Defined.



(** X17: when the data file or the list of selected cases is not there, the
    library stays empty and every request for a case or for an analysis is
    answered with a 404 error. *)
Theorem missing_files_give_404 (data_entry : option (list ApiService.Row))
    (selected_cases : option (list string))
    (nlp : option (string → list string)) (vision : string → bool)
    (case_id report : string) :
  data_entry = None ∨ selected_cases = None →
  ApiService.startup_event data_entry selected_cases = ∅
  ∧ ApiService.get_case (ApiService.startup_event data_entry selected_cases) case_id
    = inl (ApiService.HTTPError 404 ("Case not found: " +:+ case_id))
  ∧ ApiService.analyze_report nlp vision
      (ApiService.startup_event data_entry selected_cases) case_id report
    = inl (ApiService.HTTPError 404
             ("Case ID '" +:+ ApiService.case_id_base case_id
              +:+ "' not found in the library")).
Proof.
  intros H.
  assert (He : ApiService.startup_event data_entry selected_cases = ∅).
  { destruct H as [-> | ->]; [reflexivity|]. destruct data_entry; reflexivity. }
  rewrite He. unfold ApiService.get_case, ApiService.analyze_report.
  rewrite lookup_empty. repeat split.
Qed.

Lemma missing_files_give_404_witness :
  ApiService.get_case (ApiService.startup_event (Some sample_rows) None)
    "00000061_015.png"
  = inl (ApiService.HTTPError 404 "Case not found: 00000061_015.png").
Proof.
  destruct (missing_files_give_404 (Some sample_rows) None None (fun _ => false)
              "00000061_015.png" "") as (_ & H & _).
  - right. reflexivity.
  - exact H.
Defined.

Lemma isin_true_iff (x : string) (values : list string) :
  ApiService.isin x values = true ↔ In x values.
Proof.
  unfold ApiService.isin. rewrite existsb_exists. split.
  - intros (y & Hy & Heq). apply String.eqb_eq in Heq. subst y. exact Hy.
  - intros H. exists x. split; [exact H|apply String.eqb_refl].
Qed.

(** X18: a file name is selected exactly when it is not empty and some line of
    the selection file reads it once the white space around the line (its
    line break included) is removed; blank lines select nothing. *)
Theorem selected_filenames_iff (lines : list string) (name : string) :
  ApiService.isin name (ApiService.selected_filenames lines) = true ↔
  name ≠ EmptyString ∧ ∃ line, line ∈ lines ∧ PyText.strip line = name.
Proof.
  rewrite isin_true_iff. unfold ApiService.selected_filenames.
  rewrite in_map_iff. split.
  - intros (line & <- & Hl). apply filter_In in Hl as [Hl Hne].
    apply negb_true_iff, String.eqb_neq in Hne.
    split; [exact Hne|]. exists line. rewrite list_elem_of_In. auto.
  - intros (Hne & line & Hl & <-). exists line. split; [reflexivity|].
    apply filter_In. rewrite <- list_elem_of_In. split; [exact Hl|].
    apply negb_true_iff, String.eqb_neq. exact Hne.
Qed.

(** ** The path handed to the image model *)

Lemma prefix_has_char (c : ascii) (p s : string) :
  String.prefix p s = true → has_char c p = true → has_char c s = true.
Proof.
  revert s. induction p as [|a p IH]; intros s Hp Hc; [discriminate Hc|].
  destruct s as [|b s]; [discriminate Hp|].
  cbn [String.prefix] in Hp. destruct (ascii_dec a b) as [->|]; [|discriminate Hp].
  cbn [has_char] in *. destruct (Ascii.eqb b c); [reflexivity|].
  cbn [orb] in *. apply IH; assumption.
Qed.

Lemma replace_from_no_slash (new s : string) :
  has_char "/"%char s = false →
  ApiService.replace_from "/static/" new 0 s = s.
Proof.
  induction s as [|c s IH]; intros H; [reflexivity|].
  cbn [has_char] in H. apply orb_false_iff in H as [Hc H].
  cbn [ApiService.replace_from].
  rewrite prefix_cons_diff.
  - rewrite (IH H). reflexivity.
  - intros <-. rewrite Ascii.eqb_refl in Hc. discriminate Hc.
Qed.

(** X19: for a file name without a slash, the path handed to the image model
    is the stored image path without its leading slash: the replacement
    touches the first [/static/] only. *)
Theorem actual_image_path_of_case (row : ApiService.Row) :
  has_char "/"%char (ApiService.image_index row) = false →
  ApiService.actual_image_path (ApiService.image_path (ApiService.make_case row))
  = "static/images/" +:+ ApiService.image_index row.
Proof.
  intros H. unfold ApiService.actual_image_path, ApiService.make_case.
  cbn [ApiService.image_path].
  set (idx := ApiService.image_index row) in *.
  change ("/static/images/" +:+ idx)
    with (String "/" (String "s" (String "t" (String "a" (String "t"
           (String "i" (String "c" (String "/" ("images/" +:+ idx))))))))).
  cbn [ApiService.replace_from].
  rewrite !prefix_cons_same.
  assert (Hp : String.prefix "" ("images/" +:+ idx) = true) by reflexivity.
  rewrite Hp. cbn [String.length Nat.sub ApiService.replace_from].
  change ("images/" +:+ idx)
    with (String "i" (String "m" (String "a" (String "g" (String "e"
           (String "s" (String "/" idx))))))).
  cbn [ApiService.replace_from].
  rewrite !prefix_cons_diff by discriminate.
  rewrite prefix_cons_same.
  assert (Hq : String.prefix "static/" idx = false).
  { destruct (String.prefix "static/" idx) eqn:E; [|reflexivity].
    rewrite (prefix_has_char "/"%char _ _ E eq_refl) in H. discriminate H. }
  rewrite Hq, (replace_from_no_slash _ idx H). reflexivity.
Qed.

Lemma actual_image_path_of_case_witness :
  ApiService.actual_image_path
    (ApiService.image_path
       (ApiService.make_case
          {| ApiService.image_index := "00000144_001.png";
             ApiService.finding_labels := "No Finding";
             ApiService.patient_age := "83"; ApiService.patient_gender := "M" |}))
  = "static/images/00000144_001.png".
Proof.
  apply (actual_image_path_of_case
           {| ApiService.image_index := "00000144_001.png";
              ApiService.finding_labels := "No Finding";
              ApiService.patient_age := "83"; ApiService.patient_gender := "M" |}).
  reflexivity.
Defined.

(** ** The analysis endpoint *)

(** X20: [analyze_report] reads its case id up to the first dot only: a
    request by file name, by case id, or by case id with any extension gets
    the same answer, the error message included. *)
Theorem analyze_report_ignores_extension (nlp : option (string → list string))
    (vision : string → bool) (case_library : gmap string ApiService.Case)
    (request_case_id report ext : string) :
  ApiService.analyze_report nlp vision case_library
    (ApiService.case_id_base request_case_id) report
  = ApiService.analyze_report nlp vision case_library request_case_id report
  ∧ ApiService.analyze_report nlp vision case_library
      (ApiService.case_id_base request_case_id +:+ "." +:+ ext) report
    = ApiService.analyze_report nlp vision case_library request_case_id report.
Proof.
  pose proof (hd_split_on_no_sep "."%char request_case_id) as Hno.
  pose proof (hd_split_on_id "."%char _ Hno) as Hidem.
  pose proof (hd_split_on_app "."%char _ ext Hno) as Hext.
  fold (ApiService.case_id_base request_case_id) in Hidem, Hext.
  fold (ApiService.case_id_base (ApiService.case_id_base request_case_id)) in Hidem.
  change (String "."%char ext) with ("." +:+ ext) in Hext.
  fold (ApiService.case_id_base
          (ApiService.case_id_base request_case_id +:+ "." +:+ ext)) in Hext.
  unfold ApiService.analyze_report. rewrite Hidem, Hext.
  split; reflexivity.
Qed.

(** X21: when the image model reports an anomaly for the case, the gold
    standard holds [visual_anomaly], which no report can match: it is listed
    as missed and the score is at most 85. *)
Theorem visual_anomaly_caps_score (nlp : option (string → list string))
    (vision : string → bool) (case_library : gmap string ApiService.Case)
    (request_case_id report : string) (c : ApiService.Case) :
  case_library !! ApiService.case_id_base request_case_id = Some c →
  vision (ApiService.actual_image_path (ApiService.image_path c)) = true →
  ∃ resp,
    ApiService.analyze_report nlp vision case_library request_case_id report
      = inr resp
    ∧ "visual_anomaly" ∈ ApiService.resp_gold_standard_findings resp
    ∧ "visual_anomaly"
        ∈ missed_findings (ApiService.resp_advanced_feedback resp)
    ∧ overall_score (ApiService.resp_advanced_feedback resp) <= 85.
Proof.
  intros Hc Hv. unfold ApiService.analyze_report. rewrite Hc, Hv.
  eexists. split; [reflexivity|].
  cbn [ApiService.resp_gold_standard_findings ApiService.resp_advanced_feedback].
  assert (Hin : "visual_anomaly"
                  ∈ gold_standard_findings
                      (list_to_set (ApiService.expert_text_findings c))
                      (list_to_set (analyze_image true))).
  { apply elem_of_gold_standard_findings. right. cbn. set_solver. }
  split; [exact Hin|].
  apply missed_when_type_unknown; [exact Hin|reflexivity|].
  cbn. intros H. repeat (destruct H as [H|H]; [discriminate H|]). exact H.
Qed.

Lemma visual_anomaly_caps_score_witness :
  ∃ resp,
    ApiService.analyze_report (Some (PyText.split_on "."%char)) (fun _ => true)
      sample_library "00000061_015.png" clean_report = inr resp
    ∧ "visual_anomaly" ∈ ApiService.resp_gold_standard_findings resp
    ∧ "visual_anomaly"
        ∈ missed_findings (ApiService.resp_advanced_feedback resp)
    ∧ overall_score (ApiService.resp_advanced_feedback resp) <= 85.
Proof.
  apply (visual_anomaly_caps_score (Some (PyText.split_on "."%char))
           (fun _ => true) sample_library "00000061_015.png" clean_report
           (ApiService.make_case
              {| ApiService.image_index := "00000061_015.png";
                 ApiService.finding_labels := "Effusion|Pneumonia";
                 ApiService.patient_age := "77";
                 ApiService.patient_gender := "M" |})).
  - vm_compute. reflexivity.
  - reflexivity.
Defined.

(** X22: a row labelled [No Finding] is stored with the finding
    [no finding] (the check for [nofinding] does not see the space), so every
    report on such a case is told that it missed [no finding] and scores at
    most 85. *)
Theorem no_finding_case_caps_score (nlp : option (string → list string))
    (vision : string → bool) (case_library : gmap string ApiService.Case)
    (request_case_id report : string) (row : ApiService.Row) :
  case_library !! ApiService.case_id_base request_case_id
    = Some (ApiService.make_case row) →
  ApiService.finding_labels row = "No Finding" →
  ApiService.expert_text_findings (ApiService.make_case row) = ["no finding"]
  ∧ ∃ resp,
      ApiService.analyze_report nlp vision case_library request_case_id report
        = inr resp
      ∧ "no finding"
          ∈ missed_findings (ApiService.resp_advanced_feedback resp)
      ∧ overall_score (ApiService.resp_advanced_feedback resp) <= 85.
Proof.
  intros Hc Hl.
  assert (He : ApiService.expert_text_findings (ApiService.make_case row)
               = ["no finding"]).
  { cbn [ApiService.make_case ApiService.expert_text_findings].
    rewrite (no_finding_labels row Hl). apply elements_singleton. }
  split; [exact He|].
  unfold ApiService.analyze_report. rewrite Hc, He.
  eexists. split; [reflexivity|].
  cbn [ApiService.resp_advanced_feedback].
  apply missed_when_type_unknown; [|reflexivity|].
  - apply elem_of_gold_standard_findings. left. set_solver.
  - cbn. intros H. repeat (destruct H as [H|H]; [discriminate H|]). exact H.
Qed.

Lemma no_finding_case_caps_score_witness :
  ∃ resp,
    ApiService.analyze_report (Some (PyText.split_on "."%char)) (fun _ => false)
      sample_library "00000144_001" "Lungs are clear." = inr resp
    ∧ "no finding" ∈ missed_findings (ApiService.resp_advanced_feedback resp)
    ∧ overall_score (ApiService.resp_advanced_feedback resp) <= 85.
Proof.
  destruct (no_finding_case_caps_score (Some (PyText.split_on "."%char))
              (fun _ => false) sample_library "00000144_001" "Lungs are clear."
              {| ApiService.image_index := "00000144_001.png";
                 ApiService.finding_labels := "No Finding";
                 ApiService.patient_age := "83";
                 ApiService.patient_gender := "M" |}) as (_ & H).
  - vm_compute. reflexivity.
  - reflexivity.
  - exact H.
Defined.

(** ** The command-line client against the service *)

Section Client.

Variable repr_list : list string → string.
Variable post_and_print : string → string → Cli.Response (list string).

Lemma case_json_case_id (c : ApiService.Case) :
  Cli.case_json c !! "case_id" = Some (Cli.JString (ApiService.case_id c)).
Proof. unfold Cli.case_json. apply lookup_insert_eq. Qed.

Lemma case_json_keys (c : ApiService.Case) (key : string) :
  key ≠ "case_id" → key ≠ "image_path" → key ≠ "patient_info" →
  key ≠ "expert_text_findings" →
  Cli.case_json c !! key = None.
Proof.
  intros H1 H2 H3 H4. unfold Cli.case_json.
  rewrite !lookup_insert_ne by congruence. apply lookup_empty.
Qed.

Lemma analyze_all_loop_service (cs : list ApiService.Case)
    (out : list string) (sent : list (string * string)) :
  Cli.posted
    (Cli.analyze_all_loop repr_list post_and_print (List.map Cli.case_json cs)
       out sent) = sent
  ∧ (Cli.raised
       (Cli.analyze_all_loop repr_list post_and_print (List.map Cli.case_json cs)
          out sent) = None ↔
     Forall (fun c => Cli.student_report (ApiService.case_id c)
                        Cli.STUDENT_REPORTS = None) cs)
  ∧ (Cli.raised
       (Cli.analyze_all_loop repr_list post_and_print (List.map Cli.case_json cs)
          out sent) = None
     ∨ Cli.raised
         (Cli.analyze_all_loop repr_list post_and_print (List.map Cli.case_json cs)
            out sent) = Some (Cli.KeyError "expert_findings")).
Proof.
  revert out. induction cs as [|c cs IH]; intros out;
    cbn [List.map Cli.analyze_all_loop].
  - cbn. split; [reflexivity|]. split; [|left; reflexivity].
    split; [intros _; apply Forall_nil_2|reflexivity].
  - rewrite case_json_case_id.
    destruct (Cli.student_report (ApiService.case_id c) Cli.STUDENT_REPORTS)
      as [student_text|] eqn:E.
    + rewrite (case_json_keys c "expert_findings") by discriminate.
      cbn [Cli.posted Cli.raised]. split; [reflexivity|].
      split; [|right; reflexivity]. split; [discriminate|].
      intros H. apply Forall_cons in H as [H _]. congruence.
    + destruct (IH (out ++ [Cli.newline +:+ "Skipping " +:+ ApiService.case_id c
                            +:+ ": No pre-written student report found."]))
        as (H1 & H2 & H3).
      split; [exact H1|]. split; [|exact H3].
      rewrite H2. split.
      * intros H. apply Forall_cons. auto.
      * intros H. apply Forall_cons in H as [_ H]. exact H.
Qed.

End Client.

(** X23: run against this service, [list_cases] prints the header and the id
    of the first case and then stops with a [KeyError]: the entries of the
    library have no key [patient_history].  With an empty library it prints
    the header only. *)
Theorem list_cases_key_error (repr_list : list string → string)
    (c : ApiService.Case) (cs : list ApiService.Case) :
  Cli.list_cases repr_list (Cli.Json (List.map Cli.case_json (c :: cs))) =
    {| Cli.printed :=
         [ "Fetching available cases from the API...";
           Cli.newline +:+ "--- Case Library ---";
           "Case ID: " +:+ ApiService.case_id c ];
       Cli.posted := [];
       Cli.raised := Some (Cli.KeyError "patient_history") |}
  ∧ Cli.list_cases repr_list (Cli.Json (List.map Cli.case_json [])) =
    {| Cli.printed :=
         [ "Fetching available cases from the API...";
           Cli.newline +:+ "--- Case Library ---" ];
       Cli.posted := [];
       Cli.raised := None |}.
Proof.
  split; [|reflexivity].
  unfold Cli.list_cases. cbn [List.map Cli.list_cases_loop].
  rewrite case_json_case_id.
  rewrite (case_json_keys c "patient_history") by discriminate.
  reflexivity.
Qed.

(** X24: run against this service, [analyze_all] never posts a report: a case
    whose id is not one of the three sample ids is skipped, and a case with a
    sample id stops the command with a [KeyError], because the entries of the
    library have no key [expert_findings]. *)
Theorem analyze_all_never_posts (repr_list : list string → string)
    (post_and_print : string → string → Cli.Response (list string))
    (cs : list ApiService.Case) :
  Cli.posted
    (Cli.analyze_all repr_list post_and_print
       (Cli.Json (List.map Cli.case_json cs))) = []
  ∧ (Cli.raised
       (Cli.analyze_all repr_list post_and_print
          (Cli.Json (List.map Cli.case_json cs))) = None ↔
     Forall (fun c => Cli.student_report (ApiService.case_id c)
                        Cli.STUDENT_REPORTS = None) cs)
  ∧ (Cli.raised
       (Cli.analyze_all repr_list post_and_print
          (Cli.Json (List.map Cli.case_json cs))) = None
     ∨ Cli.raised
         (Cli.analyze_all repr_list post_and_print
            (Cli.Json (List.map Cli.case_json cs)))
       = Some (Cli.KeyError "expert_findings")).
Proof. unfold Cli.analyze_all. apply analyze_all_loop_service. Qed.



(** X26: a learner who adds the assertion of a gold finding that was missed
    (and that the gold standard does not also negate) gains exactly 15 points
    before clamping: the finding moves from the missed to the correct list
    and the final score does not go down. *)
Theorem found_finding_gains_15 (r : RawFinding) (findings : list RawFinding)
    (report : string) (expert_findings : list string) :
  negated r = false →
  type r ∈ expert_positives expert_findings →
  type r ∉ student_positives findings →
  type r ∉ expert_negatives expert_findings →
  raw_score
    (categorize {| fallback_findings := r :: findings; report_text := report |}
       expert_findings) =
  raw_score
    (categorize {| fallback_findings := findings; report_text := report |}
       expert_findings) + 15
  ∧ type r ∈ correct_observations
      (generate_feedback {| fallback_findings := r :: findings; report_text := report |}
         expert_findings)
  ∧ type r ∈ cat_missed_findings
      (categorize {| fallback_findings := findings; report_text := report |}
         expert_findings)
  ∧ (type r ∉ cat_missed_findings
       (categorize {| fallback_findings := r :: findings; report_text := report |}
          expert_findings))
  ∧ overall_score
      (generate_feedback {| fallback_findings := findings; report_text := report |}
         expert_findings)
    <= overall_score
      (generate_feedback {| fallback_findings := r :: findings; report_text := report |}
         expert_findings).
Proof.
  intros Hn Hep Hsp Hen.
  assert (Hraw : raw_score
    (categorize {| fallback_findings := r :: findings; report_text := report |}
       expert_findings) =
  raw_score
    (categorize {| fallback_findings := findings; report_text := report |}
       expert_findings) + 15).
  { rewrite !raw_score_sets. cbn [fallback_findings report_text].
    destruct (student_positives_cons r findings Hn) as [-> ->].
    set (sp := student_positives findings) in *.
    set (ep := expert_positives expert_findings) in *.
    set (en := expert_negatives expert_findings) in *.
    assert (H1 : ep ∖ sp = {[type r]} ∪ ep ∖ ({[type r]} ∪ sp)).
    { apply set_eq. intros y. destruct (decide (y = type r)); set_solver. }
    assert (H2 : ({[type r]} ∪ sp) ∖ ep = sp ∖ ep) by set_solver.
    assert (H3 : ({[type r]} ∪ sp) ∩ en = sp ∩ en) by set_solver.
    assert (H4 : size (ep ∖ sp) = S (size (ep ∖ ({[type r]} ∪ sp)))).
    { rewrite H1 at 1. rewrite size_union by set_solver.
      rewrite size_singleton. reflexivity. }
    rewrite H2, H3, H4. lia. }
  split; [exact Hraw|].
  destruct (student_positives_cons r findings Hn) as [Hp' _].
  split; [|split; [|split]].
  - unfold generate_feedback, assemble, categorize.
    cbn [correct_observations cat_correct_observations fallback_findings].
    apply elem_of_app. left. rewrite elem_of_elements, Hp'. set_solver.
  - unfold categorize. cbn [cat_missed_findings fallback_findings].
    rewrite elem_of_elements. set_solver.
  - unfold categorize. cbn [cat_missed_findings fallback_findings].
    rewrite elem_of_elements, Hp'. set_solver.
  - rewrite !overall_score_eq, Hraw. lia.
Qed.

Lemma found_finding_gains_15_witness :
  overall_score
    (generate_feedback
       {| fallback_findings := []; report_text := clean_report |} ["pneumonia"])
  <= overall_score
       (generate_feedback
          {| fallback_findings :=
               [ {| type := "pneumonia"; text := "there is pneumonia.";
                    negated := false |} ];
             report_text := clean_report |} ["pneumonia"]).
Proof.
  destruct (found_finding_gains_15
              {| type := "pneumonia"; text := "there is pneumonia.";
                 negated := false |} [] clean_report ["pneumonia"])
    as (_ & _ & _ & _ & H).
  - reflexivity.
  - unfold expert_positives; simpl. set_solver.
  - unfold student_positives; simpl. set_solver.
  - unfold expert_negatives; simpl. set_solver.
  - exact H.
Defined.
